(** * Hand Teleop API (render_backend.py): session, connection and broadcast layer

    A shallow embedding of [projects/hand-teleop-system/render_backend.py].
    The three module-level globals of the backend ([active_sessions],
    [websocket_connections], [current_robot_config]) are threaded explicitly
    as one [State] record, together with the observable side of the
    WebSocket transport.  Python exceptions are values of a small error
    monad.  Floating point literals are kept as binary64 values. *)

From Stdlib Require Import PrimFloat.
From stdpp Require Import gmap strings list fin_maps.

#[local] Set Warnings "-inexact-float,-register-all".
#[local] Open Scope string_scope.
#[local] Open Scope list_scope.

(** ** Python values *)

(** Python numbers: the literals of the backend mix [int] and [float]. *)
Inductive pynum :=
| PInt (z : Z)
| PFloat (f : float).

Definition pynum_is_zero (n : pynum) : bool :=
  match n with
  | PInt z => bool_decide (z = 0%Z)
  | PFloat f => PrimFloat.eqb f 0%float
  end.

(** What [receive_json] and a request body can carry.  A JSON object is a
    Python [dict] with string keys. *)
Inductive json :=
| JNull
| JBool (b : bool)
| JNum (n : pynum)
| JStr (s : string)
| JArr (l : list json)
| JObj (m : gmap string json).

Definition py_type_name (v : json) : string :=
  match v with
  | JNull => "NoneType"
  | JBool _ => "bool"
  | JNum (PInt _) => "int"
  | JNum (PFloat _) => "float"
  | JStr _ => "str"
  | JArr _ => "list"
  | JObj _ => "dict"
  end.

(** ** Exceptions and the error monad *)

Inductive pyexn :=
| AttributeError (msg : string)
| HTTPException (status_code : Z) (detail : string)
| WebSocketDisconnect
| RuntimeError (msg : string).

Definition exn_str (e : pyexn) : string :=
  match e with
  | AttributeError msg => msg
  | HTTPException _ detail => detail
  | WebSocketDisconnect => ""
  | RuntimeError msg => msg
  end.

Inductive result (A : Type) :=
| Ok (a : A)
| Raise (e : pyexn).
Arguments Ok {A} a.
Arguments Raise {A} e.

#[global] Instance result_bind : MBind result := λ A B k r,
  match r with
  | Ok a => k a
  | Raise e => Raise e
  end.

Definition is_Raise {A : Type} (r : result A) : Prop :=
  match r with Ok _ => False | Raise _ => True end.

(** [v.get(key, default)]: only a dict has the method. *)
Definition py_get (v : json) (key : string) (dflt : json) : result json :=
  match v with
  | JObj m => Ok (default dflt (m !! key))
  | _ => Raise (AttributeError
                  ("'" ++ py_type_name v ++ "' object has no attribute 'get'")%string)
  end.

(** [v == s] and [v != s] against a string literal. *)
Definition py_eq_str (v : json) (s : string) : bool :=
  match v with
  | JStr s' => String.eqb s' s
  | _ => false
  end.

Definition py_ne_str (v : json) (s : string) : bool := negb (py_eq_str v s).

(** [l.remove(x)]: drops the first occurrence. *)
Fixpoint py_list_remove {A : Type} `{EqDecision A} (x : A) (l : list A) : list A :=
  match l with
  | [] => []
  | y :: l' => if decide (x = y) then l' else y :: py_list_remove x l'
  end.

(** ** Data models *)

Record HandPosition := { x : float; y : float; z : float }.

Record FingertipData := {
  thumb : option HandPosition;
  index_pip : option HandPosition;
  index_tip : option HandPosition }.

Record RobotConfig := {
  robot_type : string;
  end_effector : string;
  workspace_bounds : gmap string (list float) }.

(** [RobotConfig()]: the field defaults. *)
Definition RobotConfig_default : RobotConfig :=
  {| robot_type := "SO-101";
     end_effector := "gripper";
     workspace_bounds :=
       <["x" := [(-0.3)%float; 0.3%float]]>
       (<["y" := [(-0.2)%float; 0.4%float]]>
       (<["z" := [0.1%float; 0.5%float]]> ∅)) |}.

(** Clock readings ([datetime.now()]). *)
Definition datetime := Z.

Record TrackingSession := {
  session_id : string;
  robot_config : RobotConfig;
  active : bool;
  start_time : option datetime }.

(** ** Responses *)

Record Position := { pos_x : pynum; pos_y : pynum; pos_z : pynum }.
Record Orientation := { roll : pynum; pitch : pynum; yaw : pynum }.
Record EndEffectorPose := { position : Position; orientation : Orientation }.

(** The [robot_control] dict of a tracking response. *)
Record RobotControl := {
  joint_angles : list pynum;
  end_effector_pose : EndEffectorPose;
  gripper_state : string;
  in_workspace : bool;
  confidence : pynum }.

(** The dict returned by [process_hand_tracking]; [tr_timestamp] is the
    clock reading that the wire carries as [isoformat()]. *)
Record TrackingResult := {
  tr_success : bool;
  tr_timestamp : datetime;
  tr_hand_detected : bool;
  tr_fingertips : FingertipData;
  tr_robot_control : RobotControl;
  tr_robot_type : string;
  tr_processing_time_ms : pynum }.

(** The dict returned by [set_robot_config]. *)
Record ConfigResponse := {
  cr_success : bool;
  cr_robot_config : RobotConfig;
  cr_message : string }.

(** One entry of the catalog served by [get_available_robots]. *)
Record RobotProfile := {
  rp_id : string;
  rp_name : string;
  rp_dof : nat;
  rp_description : string }.

(** ** Transport and global state *)

(** A connection handle; two handles are the same object iff equal. *)
Definition WebSocket := nat.

(** Messages the server sends, by their ["type"] tag. *)
Inductive ServerMsg :=
| config_msg (data : RobotConfig)
| pong_msg
| tracking_result_msg (data : TrackingResult)
| config_update_msg (data : RobotConfig).

Definition msg_type (m : ServerMsg) : string :=
  match m with
  | config_msg _ => "config"
  | pong_msg => "pong"
  | tracking_result_msg _ => "tracking_result"
  | config_update_msg _ => "config_update"
  end.

(** The network as the backend sees it: the handles on which [send_json]
    raises, and every message delivered so far, oldest first. *)
Record Transport := {
  dead : gset WebSocket;
  outbox : list (WebSocket * ServerMsg) }.

Record State := {
  active_sessions : gmap string TrackingSession;
  websocket_connections : list WebSocket;
  current_robot_config : RobotConfig;
  net : Transport }.

Definition set_net (t : Transport) (st : State) : State :=
  {| active_sessions := active_sessions st;
     websocket_connections := websocket_connections st;
     current_robot_config := current_robot_config st;
     net := t |}.

Definition set_connections (l : list WebSocket) (st : State) : State :=
  {| active_sessions := active_sessions st;
     websocket_connections := l;
     current_robot_config := current_robot_config st;
     net := net st |}.

Definition set_config (c : RobotConfig) (st : State) : State :=
  {| active_sessions := active_sessions st;
     websocket_connections := websocket_connections st;
     current_robot_config := c;
     net := net st |}.

(** The module-level initial values. *)
Definition initial_state (t : Transport) : State :=
  {| active_sessions := ∅;
     websocket_connections := [];
     current_robot_config := RobotConfig_default;
     net := t |}.

(** [await connection.send_json(message)] *)
Definition send_json (ws : WebSocket) (msg : ServerMsg) (t : Transport)
  : result Transport :=
  if decide (ws ∈ dead t)
  then Raise (RuntimeError "send failed")
  else Ok {| dead := dead t; outbox := outbox t ++ [(ws, msg)] |}.

(** Messages delivered to [ws]. *)
Definition delivered (ws : WebSocket) (t : Transport) : list ServerMsg :=
  (filter (λ p, p.1 = ws) (outbox t)).*2.

(** ** GET /api/robots *)

Definition get_available_robots : list RobotProfile :=
  [ {| rp_id := "SO-101"; rp_name := "SO-101 Humanoid Arm"; rp_dof := 6;
       rp_description := "6-DOF humanoid robot arm with gripper" |};
    {| rp_id := "SO-100"; rp_name := "SO-100 Industrial Arm"; rp_dof := 6;
       rp_description := "Industrial 6-DOF robot arm" |};
    {| rp_id := "KOCH"; rp_name := "Koch Robotic Arm"; rp_dof := 7;
       rp_description := "7-DOF research robot arm" |} ].

(** The degree-of-freedom count the catalog lists for a robot id. *)
Definition catalog_dof (id : string) : option nat :=
  rp_dof <$> List.find (λ p, String.eqb (rp_id p) id) get_available_robots.

(** ** POST /api/track *)

Definition FingertipData_default : FingertipData :=
  {| thumb := None; index_pip := None; index_tip := None |}.

Definition track_body (now : datetime) (data : json) (st : State)
  : result TrackingResult :=
  image ← py_get data "image" (JStr "");
  let hand_detected := py_ne_str image "" in
  let '(fingertips, robot_control) :=
    if hand_detected then
      ({| thumb := Some {| x := 0.45; y := 0.35; z := 0.2 |};
          index_pip := Some {| x := 0.52; y := 0.28; z := 0.15 |};
          index_tip := Some {| x := 0.58; y := 0.22; z := 0.1 |} |},
       {| joint_angles :=
            [PFloat 45.2; PFloat (-30.5); PFloat 60.1;
             PFloat 15.0; PFloat (-45.0); PFloat 90.0];
          end_effector_pose :=
            {| position :=
                 {| pos_x := PFloat 0.25; pos_y := PFloat 0.15;
                    pos_z := PFloat 0.30 |};
               orientation :=
                 {| roll := PInt 0; pitch := PInt 45; yaw := PInt (-30) |} |};
          gripper_state := "open";
          in_workspace := true;
          confidence := PFloat 0.94 |})
    else
      (FingertipData_default,
       {| joint_angles := [PInt 0; PInt 0; PInt 0; PInt 0; PInt 0; PInt 0];
          end_effector_pose :=
            {| position :=
                 {| pos_x := PInt 0; pos_y := PInt 0; pos_z := PInt 0 |};
               orientation :=
                 {| roll := PInt 0; pitch := PInt 0; yaw := PInt 0 |} |};
          gripper_state := "open";
          in_workspace := false;
          confidence := PFloat 0.0 |}) in
  Ok {| tr_success := true;
        tr_timestamp := now;
        tr_hand_detected := hand_detected;
        tr_fingertips := fingertips;
        tr_robot_control := robot_control;
        tr_robot_type := robot_type (current_robot_config st);
        tr_processing_time_ms := PFloat 16.7 |}.

(** The [try ... except Exception] around the body. *)
Definition process_hand_tracking (now : datetime) (data : json) (st : State)
  : result TrackingResult :=
  match track_body now data st with
  | Ok r => Ok r
  | Raise e => Raise (HTTPException 500 ("Tracking error: " ++ exn_str e)%string)
  end.

(** ** Broadcast coordinator *)

(** The [for connection in websocket_connections] loop when no other task
    runs while a send is awaited, so that the list read is the list as it
    was: [send_json] inside a bare [try ... except: pass]; a handle is
    appended to [active_connections] only after its send returned.
    [broadcast_live] below is the loop with other tasks at its awaits. *)
Fixpoint broadcast_loop (conns : list WebSocket) (message : ServerMsg)
    (active_connections : list WebSocket) (t : Transport)
  : list WebSocket * Transport :=
  match conns with
  | [] => (active_connections, t)
  | connection :: rest =>
      match send_json connection message t with
      | Ok t' =>
          broadcast_loop rest message (active_connections ++ [connection]) t'
      | Raise _ => broadcast_loop rest message active_connections t
      end
  end.

(** [broadcast_config_update] run without interruption. *)
Definition broadcast_config_update (st : State) : State :=
  match websocket_connections st with
  | [] => st
  | _ :: _ =>
      let message := config_update_msg (current_robot_config st) in
      let '(active_connections, t) :=
        broadcast_loop (websocket_connections st) message [] (net st) in
      set_connections active_connections (set_net t st)
  end.

(** ** POST /api/config/robot *)

(** The argument is the request body after pydantic parsed it into a
    [RobotConfig]; the function itself inspects nothing. *)
Definition set_robot_config (config : RobotConfig) (st : State)
  : State * ConfigResponse :=
  let st := set_config config st in
  let st := broadcast_config_update st in
  (st, {| cr_success := true;
          cr_robot_config := current_robot_config st;
          cr_message := ("Robot configured to " ++ robot_type config)%string |}).

(** ** WS /api/tracking/live *)

(** Where a handler stands: before [accept] returned, inside the receive
    loop, or past its [finally]. *)
Inductive ConnState := CONNECTING | OPEN | CLOSED.

(** What [await websocket.receive_json()] gives: a decoded value, or an
    exception (the peer left, or the text was not JSON). *)
Inductive Inbound :=
| recv_json (data : json)
| recv_raise (e : pyexn).

Definition st_send (ws : WebSocket) (msg : ServerMsg) (st : State)
  : result State :=
  t ← send_json ws msg (net st); Ok (set_net t st).

(** The [finally] clause. *)
Definition finally_unregister (ws : WebSocket) (st : State) : State :=
  if decide (ws ∈ websocket_connections st)
  then set_connections (py_list_remove ws (websocket_connections st)) st
  else st.

(** The dict the ["image"] branch builds for the tracker. *)
Definition image_tracking_data (data : json) : result json :=
  image_data ← py_get data "data" (JStr "");
  tracking_mode ← py_get data "tracking_mode" (JStr "mediapipe");
  rtype ← py_get data "robot_type" (JStr "so101");
  timestamp ← py_get data "timestamp" JNull;
  client_timestamp ← py_get data "client_timestamp" JNull;
  Ok (JObj (<["image" := image_data]>
           (<["tracking_mode" := tracking_mode]>
           (<["robot_type" := rtype]>
           (<["timestamp" := timestamp]>
           (<["client_timestamp" := client_timestamp]> ∅)))))).

(** One pass through the body of [while True], after the receive. *)
Definition handle_message (now : datetime) (ws : WebSocket) (data : json)
    (st : State) : result State :=
  ty ← py_get data "type" JNull;
  if py_eq_str ty "ping" then st_send ws pong_msg st
  else if py_eq_str ty "track" then
    payload ← py_get data "data" (JObj ∅);
    r ← process_hand_tracking now payload st;
    st_send ws (tracking_result_msg r) st
  else if py_eq_str ty "image" then
    tracking_data ← image_tracking_data data;
    r ← process_hand_tracking now tracking_data st;
    st_send ws (tracking_result_msg r) st
  else Ok st.

(** [websocket_connections.append(websocket)] *)
Definition register (ws : WebSocket) (st : State) : State :=
  set_connections (websocket_connections st ++ [ws]) st.

(** After [accept]: register, then push the current configuration. *)
Definition ws_connect (ws : WebSocket) (st : State) : State * ConnState :=
  let st := register ws st in
  match st_send ws (config_msg (current_robot_config st)) st with
  | Ok st' => (st', OPEN)
  | Raise _ => (finally_unregister ws st, CLOSED)
  end.

(** One iteration of the receive loop.  Any exception leaves the loop
    through [except] and [finally]; the handler then returns. *)
Definition ws_step (now : datetime) (ws : WebSocket) (ev : Inbound)
    (st : State) : State * ConnState :=
  let r := match ev with
           | recv_json data => handle_message now ws data st
           | recv_raise e => Raise e
           end in
  match r with
  | Ok st' => (st', OPEN)
  | Raise _ => (finally_unregister ws st, CLOSED)
  end.

(** The loop over a finite run of receive events. *)
Fixpoint ws_loop (ws : WebSocket) (evs : list (datetime * Inbound))
    (st : State) : State * ConnState :=
  match evs with
  | [] => (st, OPEN)
  | (now, ev) :: evs' =>
      match ws_step now ws ev st with
      | (st', OPEN) => ws_loop ws evs' st'
      | (st', c) => (st', c)
      end
  end.

(** ** Configuration validation asked by the specification *)

(** A 2-element [[min, max]] with [min <= max]. *)
Definition bounds_ok (b : list float) : bool :=
  match b with
  | [lo; hi] => PrimFloat.leb lo hi
  | _ => false
  end.

(** The check the specification attributes to [set]: exactly the axes
    x, y and z, each with well-formed bounds.  The backend has no such
    function; this one is written from the specification's wording, to
    compare [set_robot_config] against. *)
Definition spec_bounds_valid (c : RobotConfig) : bool :=
  bool_decide (dom (workspace_bounds c) = ({["x"; "y"; "z"]} : gset string))
  && bool_decide (map_Forall (λ _ b, bounds_ok b = true) (workspace_bounds c)).

(** ** Session manager *)

(** Modelled from the spec: the Session Manager's [activate] and
    [deactivate].  The backend declares [TrackingSession] and the
    [active_sessions] dict but no function that reads or writes them, so the
    operations follow section 4.4 of the specification: an unseen id gets a
    session with [active = False] and no [start_time]; the first activation
    stamps [start_time]; every activation sets [active] and refreshes
    [robot_config]. *)
Definition activate (id : string) (config : RobotConfig) (now : datetime)
    (sessions : gmap string TrackingSession)
  : gmap string TrackingSession * TrackingSession :=
  let s := default {| session_id := id; robot_config := config;
                      active := false; start_time := None |}
                   (sessions !! id) in
  let s' := {| session_id := session_id s;
               robot_config := config;
               active := true;
               start_time := match start_time s with
                             | None => Some now
                             | Some t0 => Some t0
                             end |} in
  (<[id := s']> sessions, s').

(** Modelled from the spec: [deactivate] clears [active] and keeps
    [start_time]; unknown ids are left alone. *)
Definition deactivate (id : string) (sessions : gmap string TrackingSession)
  : gmap string TrackingSession :=
  match sessions !! id with
  | None => sessions
  | Some s => <[id := {| session_id := session_id s;
                         robot_config := robot_config s;
                         active := false;
                         start_time := start_time s |}]> sessions
  end.

(** Calls made to the session manager, and their effect in order. *)
Inductive session_op :=
| op_activate (id : string) (config : RobotConfig) (now : datetime)
| op_deactivate (id : string).

Definition apply_op (sessions : gmap string TrackingSession) (op : session_op)
  : gmap string TrackingSession :=
  match op with
  | op_activate id config now => (activate id config now sessions).1
  | op_deactivate id => deactivate id sessions
  end.

Definition run_ops (ops : list session_op) : gmap string TrackingSession :=
  foldl apply_op ∅ ops.

Definition activates (id : string) (op : session_op) : bool :=
  match op with
  | op_activate id' _ _ => String.eqb id' id
  | op_deactivate _ => false
  end.

(** [start_time] of the session stored under [id], [None] when there is
    no such session. *)
Definition start_time_of (id : string) (sessions : gmap string TrackingSession)
  : option datetime :=
  s ← sessions !! id; start_time s.

(** ** Derived notions used in the statements *)

(** The argument a ["track"] or ["image"] message makes the handler pass to
    [process_hand_tracking]; [None] for every other message. *)
Definition tracker_input (data : json) : option json :=
  match data with
  | JObj m =>
      let ty := default JNull (m !! "type") in
      if py_eq_str ty "ping" then None
      else if py_eq_str ty "track" then Some (default (JObj ∅) (m !! "data"))
      else if py_eq_str ty "image" then
        Some (JObj (<["image" := default (JStr "") (m !! "data")]>
                   (<["tracking_mode" :=
                        default (JStr "mediapipe") (m !! "tracking_mode")]>
                   (<["robot_type" := default (JStr "so101") (m !! "robot_type")]>
                   (<["timestamp" := default JNull (m !! "timestamp")]>
                   (<["client_timestamp" :=
                        default JNull (m !! "client_timestamp")]> ∅))))))
      else None
  | _ => None
  end.

(** The canonical "no hand detected" result. *)
Definition no_hand_detected (r : TrackingResult) : Prop :=
  tr_hand_detected r = false
  ∧ Forall (λ a, a = PInt 0) (joint_angles (tr_robot_control r))
  ∧ confidence (tr_robot_control r) = PFloat 0
  ∧ in_workspace (tr_robot_control r) = false.

(** The image field of a frame payload is missing or the empty string. *)
Definition image_empty_or_absent (m : gmap string json) : Prop :=
  m !! "image" = None ∨ m !! "image" = Some (JStr "").

(** The frame payload carries an image other than the empty string. *)
Definition image_non_empty (m : gmap string json) : Prop :=
  ∃ v, m !! "image" = Some v ∧ v ≠ JStr "".

(** How many times [ws] occurs in a registry. *)
Definition occurrences (ws : WebSocket) (l : list WebSocket) : nat :=
  length (filter (λ c, c = ws) l).

(** What a reply on [ws] does to the state. *)
Definition replied (ws : WebSocket) (msg : ServerMsg) (st : State) : State :=
  set_net {| dead := dead (net st); outbox := outbox (net st) ++ [(ws, msg)] |} st.

Definition healthy (t : Transport) (ws : WebSocket) : Prop := ws ∉ dead t.

#[global] Instance healthy_dec t ws : Decision (healthy t ws).
Proof. unfold healthy. apply _. Defined.

(** ** Sample inputs *)

Definition net_ok : Transport := {| dead := ∅; outbox := [] |}.

(** One healthy client, handle 1, in the registry. *)
Definition one_client : State := register 1 (initial_state net_ok).

Definition koch_config : RobotConfig :=
  {| robot_type := "KOCH";
     end_effector := "gripper";
     workspace_bounds := workspace_bounds RobotConfig_default |}.

Definition koch_state : State := set_config koch_config one_client.

(** [{"image": "frame"}] *)
Definition frame_with_image : gmap string json := {[ "image" := JStr "frame" ]}.

(** [{"type": "track", "data": {"image": "frame"}}] *)
Definition track_frame : json :=
  JObj (<["type" := JStr "track"]> (<["data" := JObj frame_with_image]> ∅)).

(** [{"type": "track", "data": null}] *)
Definition track_null : json :=
  JObj (<["type" := JStr "track"]> (<["data" := JNull]> ∅)).

(** [{"type": "image", "data": "frame", "robot_type": "KOCH"}] *)
Definition image_for_koch : json :=
  JObj (<["type" := JStr "image"]>
       (<["data" := JStr "frame"]>
       (<["robot_type" := JStr "KOCH"]> ∅))).

(** Handles 1, 2 and 3 registered; sends to handle 2 fail. *)
Definition three_clients : State :=
  register 3 (register 2 (register 1
    (initial_state {| dead := {[2]}; outbox := [] |}))).

(** Bounds with a single axis, and its minimum above its maximum. *)
Definition bad_config : RobotConfig :=
  {| robot_type := "SO-100";
     end_effector := "gripper";
     workspace_bounds := {[ "x" := [0.3%float; (-0.3)%float] ]} |}.

(** ** The claims the backend does not meet, as the specification words them *)

(** A processing error on a frame is answered with the "no hand detected"
    result and the handler stays in its loop. *)
Definition frame_error_degrades (now : datetime) (ws : WebSocket) (data : json)
    (st : State) : Prop :=
  ∀ p, tracker_input data = Some p →
       is_Raise (process_hand_tracking now p st) →
       ∃ r, no_hand_detected r
            ∧ ws_step now ws (recv_json data) st
              = (replied ws (tracking_result_msg r) st, OPEN).

(** A detected hand comes with as many joint angles as the catalog lists
    degrees of freedom for the configured robot. *)
Definition joint_angles_match_dof (now : datetime) (m : gmap string json)
    (st : State) : Prop :=
  image_non_empty m →
  ∃ r, process_hand_tracking now (JObj m) st = Ok r
       ∧ tr_hand_detected r = true
       ∧ ∀ dof, catalog_dof (robot_type (current_robot_config st)) = Some dof →
                length (joint_angles (tr_robot_control r)) = dof.

(** Confidence and processing time are the same for any two frames. *)
Definition confidence_and_timing_fixed (now1 now2 : datetime)
    (m1 m2 : gmap string json) (st : State) : Prop :=
  ∀ r1 r2, process_hand_tracking now1 (JObj m1) st = Ok r1 →
           process_hand_tracking now2 (JObj m2) st = Ok r2 →
           confidence (tr_robot_control r1) = confidence (tr_robot_control r2)
           ∧ tr_processing_time_ms r1 = tr_processing_time_ms r2.



(** ** GET /api/health *)

Record HealthResponse := {
  h_status : string;
  h_service : string;
  h_version : string;
  h_timestamp : datetime;
  h_active_sessions : nat;
  h_websocket_connections : nat }.

Definition health_check (now : datetime) (st : State) : HealthResponse :=
  {| h_status := "healthy";
     h_service := "hand-teleop-api";
     h_version := "2.0.0";
     h_timestamp := now;
     h_active_sessions := size (active_sessions st);
     h_websocket_connections := length (websocket_connections st) |}.

(** ** The backend as a whole *)

(** The peer of [ws] goes away: from now on [send_json] on it raises. *)
Definition lose_peer (ws : WebSocket) (st : State) : State :=
  set_net {| dead := {[ws]} ∪ dead (net st); outbox := outbox (net st) |} st.

(** What reaches the application: the HTTP requests, a WebSocket whose
    handshake went through, one turn of some handler's receive loop, and
    a connection that breaks ([WS_lost], which no handler has noticed yet).
    The body of [POST /api/track] is declared [dict]. *)
Inductive Request :=
| GET_health (now : datetime)
| GET_robots
| POST_config (config : RobotConfig)
| POST_track (now : datetime) (data : gmap string json)
| WS_accept (ws : WebSocket)
| WS_receive (now : datetime) (ws : WebSocket) (ev : Inbound)
| WS_lost (ws : WebSocket).

(** The globals after a request was served. *)
Definition serve (st : State) (req : Request) : State :=
  match req with
  | GET_health _ => st
  | GET_robots => st
  | POST_config config => (set_robot_config config st).1
  | POST_track _ _ => st
  | WS_accept ws => (ws_connect ws st).1
  | WS_receive now ws ev => (ws_step now ws ev st).1
  | WS_lost ws => lose_peer ws st
  end.

(** The globals after a run of requests from a fresh process. *)
Definition run (t : Transport) (reqs : list Request) : State :=
  foldl serve (initial_state t) reqs.

(** The configuration of the latest [POST /api/config/robot], the default
    when there was none. *)
Definition last_config (reqs : list Request) : RobotConfig :=
  foldl (λ c req, match req with POST_config c' => c' | _ => c end)
        RobotConfig_default reqs.

(** The configuration a sent message carries, if it carries one. *)
Definition msg_config (m : ServerMsg) : option RobotConfig :=
  match m with
  | config_msg c => Some c
  | config_update_msg c => Some c
  | pong_msg => None
  | tracking_result_msg _ => None
  end.

(** The message's ["type"] is none of the three the handler knows; a
    missing or non-string ["type"] counts. *)
Definition unrecognized (m : gmap string json) : Prop :=
  ∀ s, m !! "type" = Some (JStr s) → s ≠ "ping" ∧ s ≠ "track" ∧ s ≠ "image".

(** Two clients, handles 1 and 2, both reachable. *)
Definition two_clients : State := register 2 one_client.

(** [{"type": "ping"}] *)
Definition ping : gmap string json := {[ "type" := JStr "ping" ]}.

(** [{"type": "subscribe"}] *)
Definition subscribe : gmap string json := {[ "type" := JStr "subscribe" ]}.

(** [{"type": "image", "data": null}] *)
Definition image_null : gmap string json :=
  <["type" := JStr "image"]> (<["data" := JNull]> ∅).

(** [websocket_tracking] from the accepted handshake to the end of a finite
    run of receive events: register, push the configuration, loop. *)
Definition websocket_tracking (ws : WebSocket) (evs : list (datetime * Inbound))
    (st : State) : State * ConnState :=
  match ws_connect ws st with
  | (st', OPEN) => ws_loop ws evs st'
  | (st', c) => (st', c)
  end.

(** The handles of the accepted WebSockets of a run, in order. *)
Definition accepted (reqs : list Request) : list WebSocket :=
  reqs ≫= (λ req, match req with WS_accept ws => [ws] | _ => [] end).

(** The configuration was the default or was posted during the run. *)
Definition was_set (reqs : list Request) (c : RobotConfig) : Prop :=
  c = RobotConfig_default ∨ POST_config c ∈ reqs.

(** ** The broadcast loop among other tasks *)

(** [for connection in websocket_connections] reads the global list through
    an index, and every [await connection.send_json(message)] lets other
    tasks run before the send returns or raises.  [sched] lists, await by
    await, the requests those tasks serve in the meantime; once it is used
    up the remaining sends are not interrupted, which is [broadcast_loop] on
    what is left of the list. *)
Fixpoint broadcast_live (sched : list (list Request)) (i : nat)
    (message : ServerMsg) (active_connections : list WebSocket) (st : State)
  : list WebSocket * State :=
  match sched with
  | [] =>
      let '(active_connections, t) :=
        broadcast_loop (drop i (websocket_connections st)) message
                       active_connections (net st) in
      (active_connections, set_net t st)
  | during :: sched' =>
      match websocket_connections st !! i with
      | None => (active_connections, st)
      | Some connection =>
          let st := foldl serve st during in
          match send_json connection message (net st) with
          | Ok t =>
              broadcast_live sched' (S i) message
                             (active_connections ++ [connection]) (set_net t st)
          | Raise _ => broadcast_live sched' (S i) message active_connections st
          end
      end
  end.

(** [broadcast_config_update] with the other tasks of [sched] running at
    its awaits. *)
Definition broadcast_config_update_live (sched : list (list Request))
    (st : State) : State :=
  match websocket_connections st with
  | [] => st
  | _ :: _ =>
      let message := config_update_msg (current_robot_config st) in
      let '(active_connections, st') := broadcast_live sched 0 message [] st in
      set_connections active_connections st'
  end.

(** Handles 1, 2 and 3 registered; the peer of handle 1 is gone. *)
Definition first_peer_gone : State :=
  lose_peer 1 (register 3 (register 2 one_client)).

(** While the first send is awaited, the handler of handle 1 sees the
    disconnect and runs its [finally]. *)
Definition first_handler_closes : list (list Request) :=
  [[WS_receive 0%Z 1 (recv_raise WebSocketDisconnect)]].


(** * Properties *)

(** ** The tracker *)

Lemma py_ne_str_true v s : py_ne_str v s = true ↔ v ≠ JStr s.
Proof.
  unfold py_ne_str, py_eq_str. destruct v; simpl; try (split; [intros _; discriminate | done]).
  rewrite negb_true_iff. destruct (String.eqb_spec s0 s) as [->|Hne]; split; try done.
  intros _ [=]. done.
Qed.

Lemma py_ne_str_false v s : py_ne_str v s = false ↔ v = JStr s.
Proof.
  rewrite <- not_true_iff_false, py_ne_str_true.
  split; [| intros -> Hne; by apply Hne].
  intros Hnn. destruct v; try (exfalso; apply Hnn; discriminate).
  destruct (String.eqb_spec s0 s) as [->|Hne]; [done |].
  exfalso. apply Hnn. intros [=]. done.
Qed.

(** A dict payload never raises; the answer is decided by the image test. *)
Lemma process_dict now m st :
  ∃ r, process_hand_tracking now (JObj m) st = Ok r
       ∧ tr_hand_detected r = py_ne_str (default (JStr "") (m !! "image")) ""
       ∧ tr_robot_type r = robot_type (current_robot_config st)
       ∧ tr_processing_time_ms r = PFloat 16.7
       ∧ tr_timestamp r = now
       ∧ tr_success r = true.
Proof.
  unfold process_hand_tracking, track_body. simpl.
  destruct (py_ne_str _ _); eexists; (split; [reflexivity | done]).
Qed.

Lemma process_raises_iff now data st :
  is_Raise (process_hand_tracking now data st) ↔ ∀ m, data ≠ JObj m.
Proof.
  split.
  - intros Hr m ->. destruct (process_dict now m st) as (r & Hok & _).
    rewrite Hok in Hr. done.
  - intros Hnd. destruct data; try done. by destruct (Hnd m).
Qed.

Lemma process_empty_image now m st :
  image_empty_or_absent m →
  ∃ r, process_hand_tracking now (JObj m) st = Ok r ∧ no_hand_detected r.
Proof.
  intros Himg.
  assert (default (JStr "") (m !! "image") = JStr "") as Hd
    by (destruct Himg as [-> | ->]; reflexivity).
  unfold process_hand_tracking, track_body. simpl. rewrite Hd. simpl.
  eexists. split; [reflexivity |].
  repeat split; simpl; auto. repeat constructor.
Qed.

Lemma process_non_empty_image now m st :
  image_non_empty m →
  ∃ r, process_hand_tracking now (JObj m) st = Ok r
       ∧ tr_hand_detected r = true
       ∧ length (joint_angles (tr_robot_control r)) = 6
       ∧ confidence (tr_robot_control r) = PFloat 0.94
       ∧ in_workspace (tr_robot_control r) = true.
Proof.
  intros (v & Hv & Hne).
  apply (py_ne_str_true v "") in Hne.
  unfold process_hand_tracking, track_body. simpl. rewrite Hv. simpl.
  rewrite Hne. eexists. split; [reflexivity | done].
Qed.

(** ** The connection handler *)

Lemma st_send_healthy ws msg st :
  healthy (net st) ws → st_send ws msg st = Ok (replied ws msg st).
Proof.
  intros Hh. unfold st_send, send_json, replied. simpl.
  destruct (decide (ws ∈ dead (net st))); [by destruct Hh | done].
Qed.

Lemma st_send_dead ws msg st :
  ¬ healthy (net st) ws → is_Raise (st_send ws msg st).
Proof.
  intros Hh. unfold st_send, send_json. simpl.
  destruct (decide (ws ∈ dead (net st))); [done | by destruct Hh].
Qed.

(** The ["track"] and ["image"] branches run the tracker on
    [tracker_input] and send its result back on the same connection. *)
Lemma handle_message_tracker now ws data st p :
  tracker_input data = Some p →
  handle_message now ws data st
  = (r ← process_hand_tracking now p st; st_send ws (tracking_result_msg r) st).
Proof.
  destruct data as [| | | | |m]; try discriminate.
  unfold tracker_input, handle_message, image_tracking_data. simpl.
  destruct (py_eq_str _ "ping"); [discriminate |].
  destruct (py_eq_str _ "track"); [by intros [= <-] |].
  destruct (py_eq_str _ "image"); [by intros [= <-] | discriminate].
Qed.

(** An ["image"] message always hands the tracker a dict. *)
Lemma tracker_input_cases data p :
  tracker_input data = Some p →
  ∃ m, data = JObj m
       ∧ ((m !! "type" = Some (JStr "track")
           ∧ p = default (JObj ∅) (m !! "data"))
          ∨ (m !! "type" = Some (JStr "image") ∧ ∃ pm, p = JObj pm
             ∧ pm !! "image" = Some (default (JStr "") (m !! "data")))).
Proof.
  destruct data as [| | | | |m]; try discriminate.
  intros Hp. exists m. split; [done |]. revert Hp.
  unfold tracker_input.
  destruct (m !! "type") as [ty|] eqn:Hty; simpl; [| discriminate].
  destruct ty as [| | |s| |]; simpl; try discriminate.
  destruct (String.eqb_spec s "ping") as [->|_]; [discriminate |].
  destruct (String.eqb_spec s "track") as [->|_]; [intros [= <-]; by left |].
  destruct (String.eqb_spec s "image") as [->|_]; [| discriminate].
  intros [= <-]. right. split; [done |]. eexists. split; [reflexivity |].
  by rewrite lookup_insert_eq.
Qed.

Lemma ws_step_raise now ws data st :
  is_Raise (handle_message now ws data st) →
  ws_step now ws (recv_json data) st = (finally_unregister ws st, CLOSED).
Proof. unfold ws_step. by destruct (handle_message now ws data st). Qed.

Lemma ws_step_tracker_ok now ws data st p r :
  tracker_input data = Some p →
  process_hand_tracking now p st = Ok r →
  healthy (net st) ws →
  ws_step now ws (recv_json data) st
  = (replied ws (tracking_result_msg r) st, OPEN).
Proof.
  intros Hp Hr Hh. unfold ws_step.
  rewrite (handle_message_tracker _ _ _ _ _ Hp), Hr. simpl.
  change (mbind _ (Ok r)) with (st_send ws (tracking_result_msg r) st).
  by rewrite st_send_healthy.
Qed.

Lemma ws_step_tracker_raise now ws data st p :
  tracker_input data = Some p →
  is_Raise (process_hand_tracking now p st) →
  ws_step now ws (recv_json data) st = (finally_unregister ws st, CLOSED).
Proof.
  intros Hp Hr. apply ws_step_raise.
  rewrite (handle_message_tracker _ _ _ _ _ Hp).
  by destruct (process_hand_tracking now p st).
Qed.

Lemma py_list_remove_not_elem {A : Type} `{EqDecision A} (a : A) (l : list A) :
  a ∉ l → py_list_remove a l = l.
Proof.
  induction l as [|b l IH]; [done |]. intros Hn. simpl.
  apply not_elem_of_cons in Hn as [Hab Hl].
  destruct (decide (a = b)); [done |]. by rewrite IH.
Qed.

Lemma finally_unregister_connections ws st :
  websocket_connections (finally_unregister ws st)
  = py_list_remove ws (websocket_connections st).
Proof.
  unfold finally_unregister. case_decide; [done |].
  by rewrite py_list_remove_not_elem.
Qed.

Lemma finally_unregister_net ws st : net (finally_unregister ws st) = net st.
Proof. unfold finally_unregister. by case_decide. Qed.

Lemma catalog_dof_cases id dof :
  catalog_dof id = Some dof →
  (id = "SO-101" ∧ dof = 6) ∨ (id = "SO-100" ∧ dof = 6) ∨ (id = "KOCH" ∧ dof = 7).
Proof.
  unfold catalog_dof, get_available_robots.
  cbn [List.find rp_id].
  destruct (String.eqb_spec "SO-101" id) as [<-|_]; [intros [= <-]; auto |].
  destruct (String.eqb_spec "SO-100" id) as [<-|_]; [intros [= <-]; auto |].
  destruct (String.eqb_spec "KOCH" id) as [<-|_]; [intros [= <-]; auto |].
  discriminate.
Qed.

Lemma PFloat_094_nonzero : PFloat 0.94 ≠ PFloat 0.
Proof. intros H. apply (f_equal pynum_is_zero) in H. vm_compute in H. discriminate. Qed.

(** C3, as the specification words it, fails: a ["track"] message whose
    ["data"] is [null] makes the tracker raise, and the handler then leaves
    its loop without replying. *)
Lemma C3_bad_frame_closes_connection :
  ¬ frame_error_degrades 0%Z 1 track_null one_client.
Proof.
  intros H. destruct (H JNull eq_refl I) as (r & _ & Hstep).
  rewrite (ws_step_tracker_raise 0%Z 1 track_null one_client JNull eq_refl I) in Hstep.
  discriminate.
Qed.

(** C3 (amended): when processing a ["track"] or ["image"] frame raises, the
    handler sends nothing, takes its handle out of the registry and ends in
    CLOSED; this happens only for a ["track"] message whose ["data"] is not
    an object. *)
Theorem C3_frame_error_closes now ws data st p :
  tracker_input data = Some p →
  is_Raise (process_hand_tracking now p st) →
  let '(st', c) := ws_step now ws (recv_json data) st in
  c = CLOSED
  ∧ net st' = net st
  ∧ websocket_connections st' = py_list_remove ws (websocket_connections st)
  ∧ ∃ m, data = JObj m ∧ m !! "type" = Some (JStr "track")
         ∧ p = default (JObj ∅) (m !! "data") ∧ ∀ pm, p ≠ JObj pm.
Proof.
  intros Hp Hr. rewrite (ws_step_tracker_raise _ _ _ _ _ Hp Hr).
  split; [done |]. split; [apply finally_unregister_net |].
  split; [apply finally_unregister_connections |].
  pose proof (proj1 (process_raises_iff _ _ _) Hr) as Hnd.
  destruct (tracker_input_cases _ _ Hp) as (m & -> & [[Hty ->] | (_ & pm & -> & _)]).
  - exists m. done.
  - by destruct (Hnd pm).
Qed.

Lemma C3_frame_error_closes_witness :
  let '(st', c) := ws_step 0%Z 1 (recv_json track_null) one_client in
  c = CLOSED
  ∧ net st' = net one_client
  ∧ websocket_connections st' = py_list_remove 1 (websocket_connections one_client)
  ∧ ∃ m, track_null = JObj m ∧ m !! "type" = Some (JStr "track")
         ∧ JNull = default (JObj ∅) (m !! "data") ∧ ∀ pm, JNull ≠ JObj pm.
Proof.
  apply (C3_frame_error_closes 0%Z 1 track_null one_client JNull); [reflexivity | exact I].
Defined.

Lemma frame_with_image_non_empty : image_non_empty frame_with_image.
Proof. exists (JStr "frame"). split; [reflexivity | discriminate]. Qed.

(** C4, as the specification words it, fails: with KOCH configured the
    catalog lists 7 degrees of freedom and the tracker answers 6 angles. *)
Lemma C4_koch_gets_six_angles :
  ¬ joint_angles_match_dof 0%Z frame_with_image koch_state.
Proof.
  intros H. destruct (H frame_with_image_non_empty) as (r & Hr & _ & Hdof).
  specialize (Hdof 7 eq_refl).
  destruct (process_non_empty_image 0%Z frame_with_image koch_state
              frame_with_image_non_empty) as (r' & Hr' & _ & Hlen & _).
  rewrite Hr in Hr'. injection Hr' as <-. rewrite Hlen in Hdof. discriminate.
Qed.

(** C4 (amended): a track request with a non-empty image is answered by a
    [tracking_result] with [hand_detected] set and exactly 6 joint angles,
    whatever robot is configured; that is the catalog's count for SO-101 and
    SO-100 and not for KOCH. *)
Theorem C4_detected_six_joint_angles now m st :
  image_non_empty m →
  ∃ r, process_hand_tracking now (JObj m) st = Ok r
       ∧ tr_hand_detected r = true
       ∧ length (joint_angles (tr_robot_control r)) = 6
       ∧ (∀ dof, catalog_dof (robot_type (current_robot_config st)) = Some dof →
                 (length (joint_angles (tr_robot_control r)) = dof
                  ↔ robot_type (current_robot_config st) ≠ "KOCH"))
       ∧ (∀ ws data, tracker_input data = Some (JObj m) →
                     healthy (net st) ws →
                     ws_step now ws (recv_json data) st
                     = (replied ws (tracking_result_msg r) st, OPEN)
                       ∧ msg_type (tracking_result_msg r) = "tracking_result").
Proof.
  intros Himg.
  destruct (process_non_empty_image now m st Himg) as (r & Hr & Hdet & Hlen & _).
  exists r. split; [done |]. split; [done |]. split; [done |]. split.
  - intros dof Hdof. rewrite Hlen.
    destruct (catalog_dof_cases _ _ Hdof) as [[-> ->] | [[-> ->] | [-> ->]]];
      split; done.
  - intros ws data Hp Hh. split; [| reflexivity].
    by apply ws_step_tracker_ok with (p := JObj m).
Qed.

Lemma C4_detected_six_joint_angles_witness :
  image_non_empty frame_with_image
  ∧ ∃ r, process_hand_tracking 0%Z (JObj frame_with_image) koch_state = Ok r
       ∧ tr_hand_detected r = true
       ∧ length (joint_angles (tr_robot_control r)) = 6
       ∧ (∀ dof, catalog_dof (robot_type (current_robot_config koch_state)) = Some dof →
                 (length (joint_angles (tr_robot_control r)) = dof
                  ↔ robot_type (current_robot_config koch_state) ≠ "KOCH"))
       ∧ (∀ ws data, tracker_input data = Some (JObj frame_with_image) →
                     healthy (net koch_state) ws →
                     ws_step 0%Z ws (recv_json data) koch_state
                     = (replied ws (tracking_result_msg r) koch_state, OPEN)
                       ∧ msg_type (tracking_result_msg r) = "tracking_result").
Proof.
  split; [exact frame_with_image_non_empty |].
  apply (C4_detected_six_joint_angles 0%Z frame_with_image koch_state).
  exact frame_with_image_non_empty.
Defined.

(** C5: a frame payload whose image is empty or absent yields
    [hand_detected = False], all joint angles zero, [confidence = 0.0] and
    [in_workspace = False]. *)
Theorem C5_no_detection_default now m st :
  m !! "image" = None ∨ m !! "image" = Some (JStr "") →
  ∃ r, process_hand_tracking now (JObj m) st = Ok r
       ∧ tr_hand_detected r = false
       ∧ Forall (λ a, a = PInt 0) (joint_angles (tr_robot_control r))
       ∧ confidence (tr_robot_control r) = PFloat 0.0
       ∧ in_workspace (tr_robot_control r) = false.
Proof. intros Himg. exact (process_empty_image now m st Himg). Qed.

Lemma C5_no_detection_default_witness :
  ((∅ : gmap string json) !! "image" = None
   ∨ (∅ : gmap string json) !! "image" = Some (JStr ""))
  ∧ ∃ r, process_hand_tracking 0%Z (JObj ∅) one_client = Ok r
       ∧ tr_hand_detected r = false
       ∧ Forall (λ a, a = PInt 0) (joint_angles (tr_robot_control r))
       ∧ confidence (tr_robot_control r) = PFloat 0.0
       ∧ in_workspace (tr_robot_control r) = false.
Proof.
  split; [left; reflexivity |].
  apply (C5_no_detection_default 0%Z ∅ one_client). left. reflexivity.
Defined.

(** C8, as the specification words it, fails: the empty payload is answered
    with confidence 0.0 and a payload with an image with 0.94. *)
Lemma C8_confidence_differs :
  ¬ confidence_and_timing_fixed 0%Z 0%Z ∅ frame_with_image one_client.
Proof.
  intros H. destruct (H _ _ eq_refl eq_refl) as [Hc _].
  simpl in Hc. symmetry in Hc. by apply PFloat_094_nonzero in Hc.
Qed.

(** C8 (amended): [processing_time_ms] is 16.7 for every input; [confidence]
    is 0.94 when a hand is reported and 0.0 when not, nothing else of the
    frame enters. *)
Theorem C8_timing_fixed_confidence_by_detection now data st r :
  process_hand_tracking now data st = Ok r →
  tr_processing_time_ms r = PFloat 16.7
  ∧ confidence (tr_robot_control r)
    = (if tr_hand_detected r then PFloat 0.94 else PFloat 0.0)
  ∧ ∃ m, data = JObj m
         ∧ tr_hand_detected r = py_ne_str (default (JStr "") (m !! "image")) "".
Proof.
  destruct data as [| | | | |m]; try discriminate.
  unfold process_hand_tracking, track_body. simpl.
  destruct (py_ne_str _ _) eqn:Hd; intros [= <-]; simpl;
    (split; [done |]; split; [done |]; by exists m).
Qed.

Lemma C8_timing_fixed_confidence_by_detection_witness :
  ∃ r, process_hand_tracking 0%Z (JObj frame_with_image) one_client = Ok r
       ∧ tr_processing_time_ms r = PFloat 16.7
       ∧ confidence (tr_robot_control r)
         = (if tr_hand_detected r then PFloat 0.94 else PFloat 0.0)
       ∧ ∃ m, JObj frame_with_image = JObj m
              ∧ tr_hand_detected r = py_ne_str (default (JStr "") (m !! "image")) "".
Proof.
  eexists. split; [reflexivity |].
  apply (C8_timing_fixed_confidence_by_detection 0%Z (JObj frame_with_image) one_client).
  reflexivity.
Defined.

(** C9: the [robot_type] of every tracking result, over HTTP or on a
    connection, is the one of the stored configuration, whatever the request
    carries. *)
Theorem C9_result_robot_type_is_configured now st :
  (∀ m, ∃ r, process_hand_tracking now (JObj m) st = Ok r)
  ∧ (∀ data r, process_hand_tracking now data st = Ok r →
               tr_robot_type r = robot_type (current_robot_config st))
  ∧ (∀ ws data p st', tracker_input data = Some p →
        ws_step now ws (recv_json data) st = (st', OPEN) →
        ∃ r, st' = replied ws (tracking_result_msg r) st
             ∧ tr_robot_type r = robot_type (current_robot_config st)).
Proof.
  assert (∀ data r, process_hand_tracking now data st = Ok r →
                    tr_robot_type r = robot_type (current_robot_config st)) as Hty.
  { intros data r Hr. destruct data as [| | | | |m]; try discriminate.
    destruct (process_dict now m st) as (r' & Hr' & _ & Hrt & _).
    rewrite Hr in Hr'. by injection Hr' as <-. }
  split; [| split; [exact Hty |]].
  - intros m. destruct (process_dict now m st) as (r & Hr & _). by exists r.
  - intros ws data p st' Hp Hstep.
    destruct (process_hand_tracking now p st) as [r|e] eqn:Hr.
    + exists r. split; [| by apply (Hty p)].
      destruct (decide (healthy (net st) ws)) as [Hh | Hd].
      * rewrite (ws_step_tracker_ok _ _ _ _ _ _ Hp Hr Hh) in Hstep.
        by injection Hstep as <-.
      * unfold ws_step in Hstep.
        rewrite (handle_message_tracker _ _ _ _ _ Hp), Hr in Hstep.
        change (mbind _ (Ok r)) with (st_send ws (tracking_result_msg r) st) in Hstep.
        pose proof (st_send_dead ws (tracking_result_msg r) st Hd) as Hraise.
        destruct (st_send ws (tracking_result_msg r) st); [done | discriminate].
    + rewrite (ws_step_tracker_raise _ _ _ _ _ Hp) in Hstep; [discriminate |].
      by rewrite Hr.
Qed.

(** The request says KOCH, the store says SO-101: the result says SO-101. *)
Lemma C9_result_robot_type_is_configured_witness :
  ∃ p r, tracker_input image_for_koch = Some p
         ∧ default JNull (match p with JObj m => m !! "robot_type" | _ => None end)
           = JStr "KOCH"
         ∧ ws_step 0%Z 1 (recv_json image_for_koch) one_client
           = (replied 1 (tracking_result_msg r) one_client, OPEN)
         ∧ tr_robot_type r = "SO-101".
Proof.
  eexists. eexists. split; [reflexivity |]. split; [reflexivity |].
  split; [vm_compute; reflexivity |].
  apply (proj1 (proj2 (C9_result_robot_type_is_configured 0%Z one_client))
           (JObj (<["image" := JStr "frame"]>
                 (<["tracking_mode" := JStr "mediapipe"]>
                 (<["robot_type" := JStr "KOCH"]>
                 (<["timestamp" := JNull]>
                 (<["client_timestamp" := JNull]> ∅))))))).
  reflexivity.
Defined.

(** ** Broadcast *)

Lemma broadcast_loop_spec conns message acc t :
  let healthy_conns := filter (healthy t) conns in
  (broadcast_loop conns message acc t).1 = acc ++ healthy_conns
  ∧ dead (broadcast_loop conns message acc t).2 = dead t
  ∧ outbox (broadcast_loop conns message acc t).2
    = outbox t ++ ((λ c, (c, message)) <$> healthy_conns).
Proof.
  revert acc t. induction conns as [|c conns IH]; intros acc t; simpl.
  - by rewrite !app_nil_r.
  - unfold send_json. rewrite filter_cons.
    destruct (decide (healthy t c)) as [Hh | Hd];
      destruct (decide (c ∈ dead t)) as [Hin | Hout];
      try (by destruct Hh); try (by destruct Hd).
    + destruct (IH (acc ++ [c]) {| dead := dead t; outbox := outbox t ++ [(c, message)] |})
        as (H1 & H2 & H3).
      rewrite H1, H2, H3. simpl. by rewrite <- !app_assoc.
    + apply IH.
Qed.

Lemma broadcast_connections st :
  websocket_connections (broadcast_config_update st)
  = filter (healthy (net st)) (websocket_connections st).
Proof.
  unfold broadcast_config_update.
  destruct (websocket_connections st) as [|c l] eqn:Hl; [by rewrite Hl |].
  pose proof (broadcast_loop_spec (c :: l)
    (config_update_msg (current_robot_config st)) [] (net st)) as (H1 & _).
  destruct (broadcast_loop _ _ _ _) as [a t]. simpl in *. by rewrite H1.
Qed.

Lemma broadcast_outbox st :
  outbox (net (broadcast_config_update st))
  = outbox (net st)
    ++ ((λ c, (c, config_update_msg (current_robot_config st)))
          <$> filter (healthy (net st)) (websocket_connections st)).
Proof.
  unfold broadcast_config_update.
  destruct (websocket_connections st) as [|c l] eqn:Hl; [by rewrite app_nil_r |].
  pose proof (broadcast_loop_spec (c :: l)
    (config_update_msg (current_robot_config st)) [] (net st)) as (_ & _ & H3).
  destruct (broadcast_loop _ _ _ _) as [a t]. simpl in *. by rewrite H3.
Qed.

Lemma broadcast_dead st :
  dead (net (broadcast_config_update st)) = dead (net st).
Proof.
  unfold broadcast_config_update.
  destruct (websocket_connections st) as [|c l] eqn:Hl; [done |].
  pose proof (broadcast_loop_spec (c :: l)
    (config_update_msg (current_robot_config st)) [] (net st)) as (_ & H2 & _).
  destruct (broadcast_loop _ _ _ _) as [a t]. simpl in *. by rewrite H2.
Qed.

Lemma broadcast_config st :
  current_robot_config (broadcast_config_update st) = current_robot_config st.
Proof.
  unfold broadcast_config_update.
  destruct (websocket_connections st); [done |].
  by destruct (broadcast_loop _ _ _ _).
Qed.

Lemma delivered_app ws d o1 o2 :
  delivered ws {| dead := d; outbox := o1 ++ o2 |}
  = delivered ws {| dead := d; outbox := o1 |}
    ++ delivered ws {| dead := d; outbox := o2 |}.
Proof. unfold delivered. simpl. by rewrite filter_app, fmap_app. Qed.

Lemma delivered_fanout ws d msg l :
  delivered ws {| dead := d; outbox := (λ c, (c, msg)) <$> l |}
  = replicate (occurrences ws l) msg.
Proof.
  unfold delivered, occurrences. cbn [outbox].
  induction l as [|c l IH]; [done |].
  rewrite fmap_cons, !filter_cons. cbn [fst].
  destruct (decide (c = ws)); csimpl; by rewrite IH.
Qed.

Lemma broadcast_delivered ws st :
  delivered ws (net (broadcast_config_update st))
  = delivered ws (net st)
    ++ replicate
         (occurrences ws (filter (healthy (net st)) (websocket_connections st)))
         (config_update_msg (current_robot_config st)).
Proof.
  rewrite <- delivered_fanout with (d := dead (net st)).
  destruct (net st) as [d o] eqn:Hn. simpl.
  rewrite <- delivered_app.
  pose proof (broadcast_outbox st) as Ho. pose proof (broadcast_dead st) as Hd.
  rewrite Hn in Ho, Hd. simpl in *.
  destruct (net (broadcast_config_update st)) as [d' o']. simpl in *.
  by rewrite Ho, Hd.
Qed.

Lemma occurrences_healthy t ws l :
  healthy t ws → occurrences ws (filter (healthy t) l) = occurrences ws l.
Proof.
  intros Hh. unfold occurrences. induction l as [|c l IH]; [done |].
  rewrite !filter_cons.
  destruct (decide (healthy t c)) as [Hc | Hc]; destruct (decide (c = ws)) as [-> | Hne];
    try (by destruct Hc); rewrite ?filter_cons; simpl.
  - rewrite decide_True by done. simpl. by rewrite IH.
  - by rewrite decide_False.
  - done.
Qed.

Lemma occurrences_not_healthy t ws l :
  ¬ healthy t ws → occurrences ws (filter (healthy t) l) = 0.
Proof.
  intros Hd. unfold occurrences. induction l as [|c l IH]; [done |].
  rewrite filter_cons. destruct (decide (healthy t c)) as [Hc | Hc]; [| done].
  rewrite filter_cons. destruct (decide (c = ws)) as [-> | Hne]; [by destruct Hd | done].
Qed.

Lemma occurrences_pos ws l : ws ∈ l → 0 < occurrences ws l.
Proof.
  unfold occurrences. induction 1 as [ws l | ws c l _ IH]; rewrite filter_cons.
  - rewrite decide_True by done. simpl. lia.
  - destruct (decide (c = ws)); simpl; lia.
Qed.

Lemma occurrences_not_elem ws l : ws ∉ l → occurrences ws l = 0.
Proof.
  unfold occurrences. induction l as [|c l IH]; [done |].
  intros [Hne Hl]%not_elem_of_cons. rewrite filter_cons.
  rewrite decide_False by done. by apply IH.
Qed.

Lemma occurrences_NoDup ws l : NoDup l → ws ∈ l → occurrences ws l = 1.
Proof.
  unfold occurrences. induction 1 as [|c l Hc Hnd IH]; [by intros ?%elem_of_nil |].
  rewrite filter_cons. intros [-> | Hin]%elem_of_cons.
  - rewrite decide_True by done. simpl. f_equal. by apply occurrences_not_elem.
  - rewrite decide_False by (intros ->; done). by apply IH.
Qed.


Lemma filter_healthy_only_k (t : Transport) (k : WebSocket) (l : list WebSocket) :
  (∀ c, c ∈ l → (¬ healthy t c ↔ c = k)) →
  filter (healthy t) l = filter (λ c, c ≠ k) l.
Proof.
  induction l as [|c l IH]; [done |]. intros Hk.
  rewrite !filter_cons, IH by (intros c' Hc'; apply Hk; by right).
  specialize (Hk c (list_elem_of_here _ _)).
  destruct (decide (healthy t c)) as [Hh | Hd]; destruct (decide (c ≠ k)) as [Hne | He];
    try done.
  - apply dec_stable in He. apply Hk in He. by destruct He.
  - destruct Hne. by apply Hk.
Qed.

(** A broadcast whose awaits no other task uses leaves in the registry
    exactly the handles of the earlier registry to which the message was
    delivered, in their order, and adds none. *)
Theorem C10_broadcast_keeps_delivered_subsequence st :
  let st' := broadcast_config_update st in
  websocket_connections st'
  = filter (healthy (net st)) (websocket_connections st)
  ∧ websocket_connections st' `sublist_of` websocket_connections st
  ∧ (∀ c, c ∈ websocket_connections st' → c ∈ websocket_connections st)
  ∧ outbox (net st')
    = outbox (net st)
      ++ ((λ c, (c, config_update_msg (current_robot_config st)))
            <$> websocket_connections st').
Proof.
  simpl. rewrite broadcast_connections, broadcast_outbox.
  split; [done |]. split; [apply sublist_filter |]. split; [| done].
  intros c Hc. by apply list_elem_of_filter in Hc as [_ Hc].
Qed.

(** When sends fail on exactly one registered handle [k], a broadcast whose
    awaits no other task uses still delivers the message to every other
    registered handle and keeps it registered, and [k] is gone from the
    registry afterwards. *)
Theorem C2_broadcast_isolation st k :
  k ∈ websocket_connections st →
  (∀ c, c ∈ websocket_connections st → (¬ healthy (net st) c ↔ c = k)) →
  let st' := broadcast_config_update st in
  let msg := config_update_msg (current_robot_config st) in
  (∀ c, c ∈ websocket_connections st → c ≠ k →
        c ∈ websocket_connections st'
        ∧ 0 < occurrences c (websocket_connections st)
        ∧ delivered c (net st')
          = delivered c (net st)
            ++ replicate (occurrences c (websocket_connections st)) msg)
  ∧ (k ∉ websocket_connections st')
  ∧ delivered k (net st') = delivered k (net st)
  ∧ websocket_connections st' = filter (λ c, c ≠ k) (websocket_connections st)
  ∧ (NoDup (websocket_connections st) →
     length (websocket_connections st') = length (websocket_connections st) - 1
     ∧ ∀ c, c ∈ websocket_connections st → c ≠ k →
            delivered c (net st') = delivered c (net st) ++ [msg]).
Proof.
  intros Hk Honly. simpl.
  assert (¬ healthy (net st) k) as Hkd by (by apply Honly).
  assert (∀ c, c ∈ websocket_connections st → c ≠ k → healthy (net st) c) as Hok.
  { intros c Hc Hne. destruct (decide (healthy (net st) c)) as [|Hd]; [done |].
    by apply Honly in Hd. }
  assert (∀ c, c ∈ websocket_connections st → c ≠ k →
               delivered c (net (broadcast_config_update st))
               = delivered c (net st)
                 ++ replicate (occurrences c (websocket_connections st))
                      (config_update_msg (current_robot_config st))) as Hdel.
  { intros c Hc Hne. rewrite broadcast_delivered, occurrences_healthy; auto. }
  rewrite broadcast_connections.
  split; [| split; [| split; [| split]]].
  - intros c Hc Hne. split; [| split].
    + apply list_elem_of_filter. auto.
    + by apply occurrences_pos.
    + by apply Hdel.
  - intros Hin. by apply list_elem_of_filter in Hin as [Hh _].
  - rewrite broadcast_delivered, occurrences_not_healthy by done.
    by rewrite app_nil_r.
  - by apply filter_healthy_only_k.
  - intros Hnd. split.
    + rewrite (filter_healthy_only_k _ k) by done.
      clear -Hk Hnd. induction Hnd as [|c l Hc Hnd IH]; [by apply elem_of_nil in Hk |].
      rewrite filter_cons. apply elem_of_cons in Hk as [<- | Hin].
      * rewrite decide_False by (intros Hne; by apply Hne).
        assert (filter (λ c, c ≠ k) l = l) as ->; [| simpl; lia].
        clear -Hc. induction l as [|a l IH]; [done |].
        apply not_elem_of_cons in Hc as [Hne Hl]. rewrite filter_cons.
        rewrite decide_True by (intros ->; done). by rewrite IH.
      * rewrite decide_True by (intros ->; done). simpl. rewrite IH by done.
        destruct l; [by apply elem_of_nil in Hin | simpl; lia].
    + intros c Hc Hne. rewrite Hdel by done.
      by rewrite occurrences_NoDup.
Qed.

Lemma C2_broadcast_isolation_witness :
  let st' := broadcast_config_update three_clients in
  let msg := config_update_msg (current_robot_config three_clients) in
  (∀ c, c ∈ websocket_connections three_clients → c ≠ 2 →
        c ∈ websocket_connections st'
        ∧ 0 < occurrences c (websocket_connections three_clients)
        ∧ delivered c (net st')
          = delivered c (net three_clients)
            ++ replicate (occurrences c (websocket_connections three_clients)) msg)
  ∧ (2 ∉ websocket_connections st')
  ∧ delivered 2 (net st') = delivered 2 (net three_clients)
  ∧ websocket_connections st'
    = filter (λ c, c ≠ 2) (websocket_connections three_clients)
  ∧ (NoDup (websocket_connections three_clients) →
     length (websocket_connections st')
     = length (websocket_connections three_clients) - 1
     ∧ ∀ c, c ∈ websocket_connections three_clients → c ≠ 2 →
            delivered c (net st') = delivered c (net three_clients) ++ [msg]).
Proof.
  apply (C2_broadcast_isolation three_clients 2).
  - by apply (bool_decide_unpack _).
  - intros c Hc. unfold healthy. simpl.
    rewrite <- (elem_of_singleton (C := gset WebSocket)).
    split; [apply dec_stable | by intros Hin Hn].
Defined.

Example three_clients_after_broadcast :
  websocket_connections (broadcast_config_update three_clients) = [1; 3]
  ∧ outbox (net (broadcast_config_update three_clients))
    = [(1, config_update_msg RobotConfig_default);
       (3, config_update_msg RobotConfig_default)].
Proof. split; vm_compute; reflexivity. Qed.

(** ** Registration *)

Lemma register_connections ws st :
  websocket_connections (register ws st) = websocket_connections st ++ [ws].
Proof. done. Qed.






Example double_registration_delivers_twice :
  let st2 := register 1 (register 1 (initial_state net_ok)) in
  websocket_connections st2 = [1; 1]
  ∧ outbox (net (broadcast_config_update st2))
    = [(1, config_update_msg RobotConfig_default);
       (1, config_update_msg RobotConfig_default)].
Proof. split; vm_compute; reflexivity. Qed.

(** ** Configuration store *)


Lemma default_config_valid : spec_bounds_valid RobotConfig_default = true.
Proof. vm_compute. reflexivity. Qed.


Example bad_config_stored_and_broadcast :
  let '(st', resp) := set_robot_config bad_config one_client in
  current_robot_config st' = bad_config
  ∧ cr_success resp = true
  ∧ outbox (net st') = [(1, config_update_msg bad_config)].
Proof. repeat split; vm_compute; reflexivity. Qed.


(** ** Session manager *)

Lemma start_time_of_activate id id' config now sessions :
  start_time_of id' (activate id config now sessions).1
  = if decide (id = id')
    then Some (default now (start_time_of id sessions))
    else start_time_of id' sessions.
Proof.
  unfold start_time_of, activate. cbn [fst].
  destruct (decide (id = id')) as [<- | Hne].
  - rewrite lookup_insert_eq. cbn.
    destruct (sessions !! id) as [s|]; cbn; [| done].
    by destruct (start_time s).
  - by rewrite lookup_insert_ne.
Qed.

Lemma start_time_of_deactivate id id' sessions :
  start_time_of id' (deactivate id sessions) = start_time_of id' sessions.
Proof.
  unfold start_time_of, deactivate.
  destruct (sessions !! id) as [s|] eqn:Hs; [| done].
  destruct (decide (id = id')) as [<- | Hne].
  - rewrite lookup_insert_eq, Hs. done.
  - by rewrite lookup_insert_ne.
Qed.

Lemma activate_result id config now sessions :
  let '(m, s) := activate id config now sessions in
  m !! id = Some s
  ∧ robot_config s = config
  ∧ active s = true
  ∧ start_time s = Some (default now (start_time_of id sessions)).
Proof.
  unfold activate, start_time_of. rewrite lookup_insert_eq.
  split; [done |]. split; [done |]. split; [done |]. cbn.
  destruct (sessions !! id) as [s|]; cbn; [| done]. by destruct (start_time s).
Qed.

Lemma run_ops_snoc ops op : run_ops (ops ++ [op]) = apply_op (run_ops ops) op.
Proof. unfold run_ops. by rewrite foldl_app. Qed.

(** A session has no [start_time] exactly when no [activate] was ever
    called for its id. *)
Lemma start_time_None_iff_never_activated ops id :
  start_time_of id (run_ops ops) = None ↔ existsb (activates id) ops = false.
Proof.
  induction ops as [|op ops IH] using rev_ind; [done |].
  rewrite run_ops_snoc, existsb_app. cbn [existsb]. rewrite orb_false_r, orb_false_iff.
  destruct op as [id0 config now | id0]; cbn [apply_op activates].
  - rewrite start_time_of_activate.
    destruct (decide (id0 = id)) as [-> | Hne].
    + rewrite String.eqb_refl. split; [done | by intros [_ ?]].
    + apply String.eqb_neq in Hne. rewrite Hne, IH. tauto.
  - rewrite start_time_of_deactivate, IH. tauto.
Qed.

(** C6: of two [activate] calls in a row for one id, only the first can set
    [start_time], and does so when the session was never activated; the
    second keeps it and stores the new [robot_config]; a session's
    [start_time] is [None] iff its id was never activated. *)
Theorem C6_start_time_set_once ops id cfg1 cfg2 t1 t2 :
  let m0 := run_ops ops in
  let '(m1, s1) := activate id cfg1 t1 m0 in
  let '(m2, s2) := activate id cfg2 t2 m1 in
  (existsb (activates id) ops = false → start_time s1 = Some t1)
  ∧ (∀ t0, start_time_of id m0 = Some t0 → start_time s1 = Some t0)
  ∧ start_time s2 = start_time s1
  ∧ robot_config s2 = cfg2
  ∧ m1 !! id = Some s1
  ∧ m2 !! id = Some s2
  ∧ (∀ id', start_time_of id' m0 = None ↔ existsb (activates id') ops = false)
  ∧ (∀ id', start_time_of id' m2 = None
            ↔ existsb (activates id')
                (ops ++ [op_activate id cfg1 t1; op_activate id cfg2 t2]) = false).
Proof.
  cbn zeta.
  pose proof (activate_result id cfg1 t1 (run_ops ops)) as H1.
  destruct (activate id cfg1 t1 (run_ops ops)) as [m1 s1] eqn:E1.
  pose proof (activate_result id cfg2 t2 m1) as H2.
  destruct (activate id cfg2 t2 m1) as [m2 s2] eqn:E2.
  destruct H1 as (Hm1 & _ & _ & Hs1). destruct H2 as (Hm2 & Hc2 & _ & Hs2).
  assert (start_time_of id m1 = start_time s1) as Hst1
    by (unfold start_time_of; by rewrite Hm1).
  assert (m2 = run_ops (ops ++ [op_activate id cfg1 t1; op_activate id cfg2 t2]))
    as Hrun.
  { change (ops ++ [op_activate id cfg1 t1; op_activate id cfg2 t2])
      with (ops ++ [op_activate id cfg1 t1] ++ [op_activate id cfg2 t2]).
    rewrite app_assoc, !run_ops_snoc. cbn [apply_op].
    rewrite E1. cbn [fst]. by rewrite E2. }
  split; [| split; [| split; [| split; [| split; [| split; [| split]]]]]]; try done.
  - intros Hnever. apply start_time_None_iff_never_activated in Hnever.
    by rewrite Hs1, Hnever.
  - intros t0 Ht0. by rewrite Hs1, Ht0.
  - by rewrite Hs2, Hst1, Hs1.
  - intros id'. apply start_time_None_iff_never_activated.
  - intros id'. rewrite Hrun. apply start_time_None_iff_never_activated.
Qed.

Lemma C6_start_time_set_once_witness :
  let ops := [op_activate "left" RobotConfig_default 5%Z; op_deactivate "left"] in
  let m0 := run_ops ops in
  let '(m1, s1) := activate "right" RobotConfig_default 10%Z m0 in
  let '(m2, s2) := activate "right" koch_config 20%Z m1 in
  start_time_of "right" m0 = None
  ∧ start_time s1 = Some 10%Z
  ∧ start_time s2 = Some 10%Z
  ∧ robot_config s2 = koch_config
  ∧ start_time_of "left" m2 = Some 5%Z.
Proof.
  pose proof (C6_start_time_set_once
    [op_activate "left" RobotConfig_default 5%Z; op_deactivate "left"]
    "right" RobotConfig_default koch_config 10%Z 20%Z) as H.
  cbn zeta in *.
  destruct (activate "right" RobotConfig_default 10%Z _) as [m1 s1] eqn:H1.
  destruct (activate "right" koch_config 20%Z m1) as [m2 s2] eqn:H2.
  destruct H as (Hfirst & _ & Hsecond & Hcfg & _ & _ & _ & _).
  split; [reflexivity |]. split; [exact (Hfirst eq_refl) |].
  split; [by rewrite Hsecond, (Hfirst eq_refl) |]. split; [exact Hcfg |].
  injection H1 as <- <-. injection H2 as <- <-. reflexivity.
Defined.

(** ** A session lost to one frame *)

(** After the frame with [data = null] the handler is gone: the good frame
    that follows is never answered and the handle has left the registry. *)
Example bad_frame_then_good_frame :
  let '(st', c) := ws_loop 1 [(0%Z, recv_json track_null);
                              (1%Z, recv_json track_frame)] one_client in
  c = CLOSED ∧ websocket_connections st' = [] ∧ outbox (net st') = [].
Proof. vm_compute. done. Qed.

Example good_frame_answered :
  let '(st', c) := ws_loop 1 [(1%Z, recv_json track_frame)] one_client in
  c = OPEN ∧ websocket_connections st' = [1]
  ∧ msg_type <$> delivered 1 (net st') = ["tracking_result"].
Proof. vm_compute. done. Qed.

(** * Further properties of the backend *)

(** ** One turn of the receive loop *)

Lemma st_send_ok ws msg st st' :
  st_send ws msg st = Ok st' → healthy (net st) ws ∧ st' = replied ws msg st.
Proof.
  destruct (decide (healthy (net st) ws)) as [Hh | Hd].
  - rewrite st_send_healthy by done. by intros [= <-].
  - pose proof (st_send_dead ws msg st Hd) as Hr.
    by destruct (st_send ws msg st).
Qed.

Lemma handle_message_ping now ws m st :
  m !! "type" = Some (JStr "ping") →
  handle_message now ws (JObj m) st = st_send ws pong_msg st.
Proof. intros Hty. unfold handle_message. simpl. by rewrite Hty. Qed.

Lemma py_eq_str_true v s : py_eq_str v s = true ↔ v = JStr s.
Proof.
  destruct v; simpl; try (split; discriminate).
  rewrite String.eqb_eq. split; [by intros -> | by intros [= ->]].
Qed.

Lemma unrecognized_tests m :
  unrecognized m →
  let ty := default JNull (m !! "type") in
  py_eq_str ty "ping" = false ∧ py_eq_str ty "track" = false
  ∧ py_eq_str ty "image" = false.
Proof.
  intros Hun. cbn zeta.
  assert (∀ s, s ≠ "ping" ∧ s ≠ "track" ∧ s ≠ "image" →
    String.eqb s "ping" = false ∧ String.eqb s "track" = false
    ∧ String.eqb s "image" = false) as Hs
    by (intros s (? & ? & ?); by rewrite !String.eqb_neq).
  destruct (m !! "type") as [[| | |s| |]|] eqn:Hty; simpl; try done.
  by apply Hs, Hun.
Qed.

Lemma handle_message_unrecognized now ws m st :
  unrecognized m → handle_message now ws (JObj m) st = Ok st.
Proof.
  intros (H1 & H2 & H3)%unrecognized_tests.
  unfold handle_message. simpl. by rewrite H1, H2, H3.
Qed.

(** What a successful pass through the loop body can have done. *)
Lemma handle_message_ok now ws data st st' :
  handle_message now ws data st = Ok st' →
  st' = st ∨ (healthy (net st) ws ∧ ∃ msg, st' = replied ws msg st).
Proof.
  destruct data as [| | | | |m]; try discriminate.
  unfold handle_message. simpl.
  destruct (py_eq_str _ "ping").
  { intros [? ->]%st_send_ok. right. eauto. }
  destruct (py_eq_str _ "track").
  { destruct (process_hand_tracking now _ st) as [r|e]; [| discriminate].
    intros [? ->]%st_send_ok. right. eauto. }
  destruct (py_eq_str _ "image").
  { unfold image_tracking_data. simpl.
    destruct (process_hand_tracking now _ st) as [r|e]; [| discriminate].
    intros [? ->]%st_send_ok. right. eauto. }
  intros [= <-]. by left.
Qed.

Lemma recognized_cases m :
  unrecognized m
  ∨ m !! "type" = Some (JStr "ping")
  ∨ m !! "type" = Some (JStr "track")
  ∨ m !! "type" = Some (JStr "image").
Proof.
  unfold unrecognized.
  destruct (m !! "type") as [[| | |s| |]|]; try by (left; intros s' [=]).
  destruct (decide (s = "ping")) as [-> | ?]; [auto |].
  destruct (decide (s = "track")) as [-> | ?]; [auto |].
  destruct (decide (s = "image")) as [-> | ?]; [auto |].
  left. by intros s' [= <-].
Qed.

Lemma tracker_input_track m :
  m !! "type" = Some (JStr "track") →
  tracker_input (JObj m) = Some (default (JObj ∅) (m !! "data")).
Proof. intros Hty. unfold tracker_input. by rewrite Hty. Qed.

Lemma tracker_input_image m :
  m !! "type" = Some (JStr "image") →
  ∃ pm, tracker_input (JObj m) = Some (JObj pm)
        ∧ pm !! "image" = Some (default (JStr "") (m !! "data")).
Proof.
  intros Hty. unfold tracker_input. rewrite Hty. simpl.
  eexists. split; [reflexivity |]. by rewrite lookup_insert_eq.
Qed.

Lemma occurrences_remove_same (ws : WebSocket) (l : list WebSocket) :
  occurrences ws (py_list_remove ws l) = occurrences ws l - 1.
Proof.
  unfold occurrences. induction l as [|c l IH]; [done |]. simpl.
  rewrite filter_cons. destruct (decide (ws = c)) as [<- | Hne].
  - rewrite decide_True by done. simpl. lia.
  - rewrite filter_cons, decide_False by done. by rewrite decide_False by done.
Qed.

Lemma occurrences_remove_other (ws c : WebSocket) (l : list WebSocket) :
  c ≠ ws → occurrences c (py_list_remove ws l) = occurrences c l.
Proof.
  intros Hne. unfold occurrences. induction l as [|a l IH]; [done |]. simpl.
  rewrite filter_cons. destruct (decide (ws = a)) as [<- | Hwa].
  - by rewrite decide_False by done.
  - rewrite filter_cons. destruct (decide (a = c)); simpl; by rewrite IH.
Qed.

Lemma py_list_remove_sublist (ws : WebSocket) (l : list WebSocket) :
  py_list_remove ws l `sublist_of` l.
Proof.
  induction l as [|a l IH]; [done |]. simpl.
  destruct (decide (ws = a)); [by apply sublist_cons | by apply sublist_skip].
Qed.

(** X1: a ["ping"] on a reachable connection is answered with ["pong"],
    and with nothing else: the registry, the configuration and the other
    connections are as before and the handler stays in its loop. *)
Theorem X1_ping_answered_with_pong now ws m st :
  m !! "type" = Some (JStr "ping") →
  healthy (net st) ws →
  ws_step now ws (recv_json (JObj m)) st = (replied ws pong_msg st, OPEN).
Proof.
  intros Hty Hh. unfold ws_step.
  by rewrite handle_message_ping, st_send_healthy.
Qed.

Lemma X1_ping_answered_with_pong_witness :
  ws_step 0%Z 1 (recv_json (JObj ping)) one_client
  = (replied 1 pong_msg one_client, OPEN).
Proof.
  apply (X1_ping_answered_with_pong 0%Z 1 ping one_client); [reflexivity |].
  by apply (bool_decide_unpack _).
Defined.

(** X2: a JSON object whose ["type"] is missing, not a string, or a string
    other than ping, track and image is dropped: nothing is sent, nothing
    changes, the handler stays in its loop, also when the peer can no
    longer be reached. *)
Theorem X2_unrecognized_message_ignored now ws m st :
  unrecognized m →
  ws_step now ws (recv_json (JObj m)) st = (st, OPEN).
Proof.
  intros Hun. unfold ws_step. by rewrite handle_message_unrecognized.
Qed.

Lemma X2_unrecognized_message_ignored_witness :
  ws_step 0%Z 1 (recv_json (JObj subscribe)) one_client = (one_client, OPEN).
Proof.
  apply (X2_unrecognized_message_ignored 0%Z 1 subscribe one_client).
  intros s Hs. vm_compute in Hs. injection Hs as <-. done.
Defined.

(** X3: a received value that is not a JSON object, and any exception
    out of the receive (the peer disconnecting), ends the handler: nothing
    is sent, one entry of its own handle leaves the registry, and the
    entries of every other handle stay, in their order. *)
Theorem X3_bad_receive_ends_handler now ws ev st :
  match ev with
  | recv_json data => ∀ m, data ≠ JObj m
  | recv_raise _ => True
  end →
  let '(st', c) := ws_step now ws ev st in
  c = CLOSED
  ∧ net st' = net st
  ∧ current_robot_config st' = current_robot_config st
  ∧ occurrences ws (websocket_connections st')
    = occurrences ws (websocket_connections st) - 1
  ∧ (∀ c', c' ≠ ws → occurrences c' (websocket_connections st')
                     = occurrences c' (websocket_connections st))
  ∧ websocket_connections st' `sublist_of` websocket_connections st.
Proof.
  intros Hev.
  assert (ws_step now ws ev st = (finally_unregister ws st, CLOSED)) as ->.
  { destruct ev as [data | e]; [| done].
    apply ws_step_raise. destruct data; try done. by destruct (Hev m). }
  rewrite finally_unregister_net, finally_unregister_connections.
  split; [done |]. split; [done |]. split.
  { unfold finally_unregister. by case_decide. }
  split; [apply occurrences_remove_same |].
  split; [intros c' Hne; by apply occurrences_remove_other |].
  apply py_list_remove_sublist.
Qed.

Lemma X3_bad_receive_ends_handler_witness :
  let '(st', c) := ws_step 0%Z 1 (recv_raise WebSocketDisconnect) two_clients in
  c = CLOSED
  ∧ net st' = net two_clients
  ∧ current_robot_config st' = current_robot_config two_clients
  ∧ occurrences 1 (websocket_connections st')
    = occurrences 1 (websocket_connections two_clients) - 1
  ∧ (∀ c', c' ≠ 1 → occurrences c' (websocket_connections st')
                    = occurrences c' (websocket_connections two_clients))
  ∧ websocket_connections st' `sublist_of` websocket_connections two_clients.
Proof.
  apply (X3_bad_receive_ends_handler 0%Z 1 (recv_raise WebSocketDisconnect)
           two_clients).
  exact I.
Defined.

(** X4: when the peer can no longer be reached, the handler survives a
    received value exactly if it is an object of unrecognized type; every
    message that asks for a reply ends it. *)
Theorem X4_unreachable_peer_ends_on_reply now ws data st :
  ¬ healthy (net st) ws →
  (ws_step now ws (recv_json data) st).2 = OPEN
  ↔ ∃ m, data = JObj m ∧ unrecognized m.
Proof.
  intros Hd. split.
  - unfold ws_step.
    destruct (handle_message now ws data st) as [st'|e] eqn:Hm; [| discriminate].
    intros _. destruct data as [| | | | |m]; try discriminate.
    exists m. split; [done |].
    destruct (recognized_cases m) as [Hun | [Hty | [Hty | Hty]]]; [done | | |];
      exfalso.
    + rewrite handle_message_ping in Hm by done.
      by apply st_send_ok in Hm as [? _].
    + rewrite (handle_message_tracker _ _ _ _ _ (tracker_input_track m Hty)) in Hm.
      destruct (process_hand_tracking now _ st) as [r|]; [| discriminate].
      by apply st_send_ok in Hm as [? _].
    + destruct (tracker_input_image m Hty) as (pm & Hp & _).
      rewrite (handle_message_tracker _ _ _ _ _ Hp) in Hm.
      destruct (process_hand_tracking now _ st) as [r|]; [| discriminate].
      by apply st_send_ok in Hm as [? _].
  - intros (m & -> & Hun). unfold ws_step.
    by rewrite handle_message_unrecognized.
Qed.

Lemma X4_unreachable_peer_ends_on_reply_witness :
  (ws_step 0%Z 2 (recv_json (JObj ping)) three_clients).2 = OPEN
  ↔ ∃ m, JObj ping = JObj m ∧ unrecognized m.
Proof.
  apply (X4_unreachable_peer_ends_on_reply 0%Z 2 (JObj ping) three_clients).
  by apply (bool_decide_unpack _).
Defined.

(** ** A handler from connect to close *)

Lemma py_list_remove_snoc_fresh (ws : WebSocket) (l : list WebSocket) :
  ws ∉ l → py_list_remove ws (l ++ [ws]) = l.
Proof.
  induction l as [|a l IH]; simpl.
  - intros _. by rewrite decide_True.
  - intros [Hne Hl]%not_elem_of_cons. rewrite decide_False by done.
    by rewrite IH.
Qed.

Lemma set_connections_same st :
  set_connections (websocket_connections st) st = st.
Proof. by destruct st. Qed.

Lemma ws_connect_healthy ws st :
  healthy (net st) ws →
  ws_connect ws st
  = (replied ws (config_msg (current_robot_config st)) (register ws st), OPEN).
Proof.
  intros Hh. unfold ws_connect.
  rewrite st_send_healthy by done. done.
Qed.

Lemma ws_connect_dead ws st :
  ¬ healthy (net st) ws →
  ws_connect ws st = (finally_unregister ws (register ws st), CLOSED).
Proof.
  intros Hd. unfold ws_connect.
  pose proof (st_send_dead ws (config_msg (current_robot_config (register ws st)))
                (register ws st) Hd) as Hr.
  by destruct (st_send ws _ (register ws st)).
Qed.

(** X5: a new connection whose handle is not yet registered is appended to
    the registry and is sent the current configuration as a ["config"]
    message, and no one else is sent anything; if that first send fails
    the globals are exactly as before the connection. *)
Theorem X5_connect_pushes_configuration ws st :
  ws ∉ websocket_connections st →
  let '(st', c) := ws_connect ws st in
  if decide (healthy (net st) ws)
  then c = OPEN
       ∧ websocket_connections st' = websocket_connections st ++ [ws]
       ∧ outbox (net st')
         = outbox (net st) ++ [(ws, config_msg (current_robot_config st))]
       ∧ current_robot_config st' = current_robot_config st
  else c = CLOSED ∧ st' = st.
Proof.
  intros Hfresh. destruct (decide (healthy (net st) ws)) as [Hh | Hd].
  - by rewrite ws_connect_healthy.
  - rewrite ws_connect_dead by done. split; [done |].
    unfold finally_unregister. rewrite register_connections.
    rewrite decide_True by (apply elem_of_app; right; by left).
    rewrite py_list_remove_snoc_fresh by done. by destruct st.
Qed.

Lemma X5_connect_pushes_configuration_witness :
  let '(st', c) := ws_connect 2 one_client in
  if decide (healthy (net one_client) 2)
  then c = OPEN
       ∧ websocket_connections st' = websocket_connections one_client ++ [2]
       ∧ outbox (net st')
         = outbox (net one_client)
           ++ [(2, config_msg (current_robot_config one_client))]
       ∧ current_robot_config st' = current_robot_config one_client
  else c = CLOSED ∧ st' = one_client.
Proof.
  apply (X5_connect_pushes_configuration 2 one_client).
  by apply (bool_decide_unpack _).
Defined.

Lemma ws_step_footprint now ws ev st :
  let '(st', c) := ws_step now ws ev st in
  active_sessions st' = active_sessions st
  ∧ current_robot_config st' = current_robot_config st
  ∧ dead (net st') = dead (net st)
  ∧ (c = OPEN ∧ websocket_connections st' = websocket_connections st
     ∨ c = CLOSED
       ∧ websocket_connections st' = py_list_remove ws (websocket_connections st))
  ∧ ∃ l, outbox (net st') = outbox (net st) ++ l
         ∧ (length l ≤ 1)%nat ∧ Forall (λ p, p.1 = ws) l.
Proof.
  assert (let st' := finally_unregister ws st in
          active_sessions st' = active_sessions st
          ∧ current_robot_config st' = current_robot_config st
          ∧ dead (net st') = dead (net st)
          ∧ (CLOSED = OPEN ∧ websocket_connections st' = websocket_connections st
             ∨ CLOSED = CLOSED
               ∧ websocket_connections st'
                 = py_list_remove ws (websocket_connections st))
          ∧ ∃ l, outbox (net st') = outbox (net st) ++ l
                 ∧ (length l ≤ 1)%nat ∧ Forall (λ p, p.1 = ws) l) as Hclose.
  { cbn zeta. rewrite finally_unregister_net, finally_unregister_connections.
    repeat split; try (unfold finally_unregister; by case_decide).
    - by right.
    - exists []. rewrite app_nil_r. repeat split; [simpl; lia | constructor]. }
  unfold ws_step. destruct ev as [data | e]; [| exact Hclose].
  destruct (handle_message now ws data st) as [st'|e] eqn:Hm; [| exact Hclose].
  apply handle_message_ok in Hm as [-> | (_ & msg & ->)].
  - repeat split; [by left |]. exists []. rewrite app_nil_r.
    repeat split; [simpl; lia | constructor].
  - repeat split; [by left |]. exists [(ws, msg)].
    repeat split; [simpl; lia | by repeat constructor].
Qed.

Lemma ws_loop_footprint ws evs st :
  let '(st', c) := ws_loop ws evs st in
  active_sessions st' = active_sessions st
  ∧ current_robot_config st' = current_robot_config st
  ∧ dead (net st') = dead (net st)
  ∧ (c = OPEN ∧ websocket_connections st' = websocket_connections st
     ∨ c = CLOSED
       ∧ websocket_connections st' = py_list_remove ws (websocket_connections st))
  ∧ ∃ l, outbox (net st') = outbox (net st) ++ l
         ∧ (length l ≤ length evs)%nat ∧ Forall (λ p, p.1 = ws) l.
Proof.
  revert st. induction evs as [|[now ev] evs IH]; intros st.
  - simpl. repeat split; [by left |]. exists []. rewrite app_nil_r.
    repeat split; [done | constructor].
  - cbn [ws_loop]. pose proof (ws_step_footprint now ws ev st) as Hstep.
    destruct (ws_step now ws ev st) as [st1 c1].
    destruct Hstep as (Hs & Hc & Hd & Hreg & l1 & Ho & Hlen & Hall).
    destruct Hreg as [[-> Hreg] | [-> Hreg]].
    + specialize (IH st1). destruct (ws_loop ws evs st1) as [st2 c2].
      destruct IH as (Hs2 & Hc2 & Hd2 & Hreg2 & l2 & Ho2 & Hlen2 & Hall2).
      rewrite Hs2, Hc2, Hd2, Hs, Hc, Hd. repeat split.
      * rewrite <- Hreg. exact Hreg2.
      * exists (l1 ++ l2). rewrite Ho2, Ho, app_assoc.
        repeat split; [rewrite length_app; simpl; lia | by apply Forall_app].
    + repeat split; try done; [by right |].
      exists l1. repeat split; [done | simpl; lia | done].
Qed.

Lemma ws_loop_ends_closed ws evs now e st :
  (ws_loop ws (evs ++ [(now, recv_raise e)]) st).2 = CLOSED.
Proof.
  revert st. induction evs as [|[now' ev] evs IH]; intros st; [done |].
  rewrite <- app_comm_cons. cbn [ws_loop].
  pose proof (ws_step_footprint now' ws ev st) as Hstep.
  destruct (ws_step now' ws ev st) as [st1 c1].
  destruct Hstep as (_ & _ & _ & [[-> _] | [-> _]] & _); [apply IH | done].
Qed.

Lemma finally_unregister_register_fresh ws st :
  ws ∉ websocket_connections st →
  finally_unregister ws (register ws st) = st.
Proof.
  intros Hfresh. unfold finally_unregister. rewrite register_connections.
  rewrite decide_True by (apply elem_of_app; right; by left).
  rewrite py_list_remove_snoc_fresh by done. by destruct st.
Qed.

(** X6: a handler that runs until its receive raises (the peer leaves)
    gives the registry back as it found it: when its handle was not
    registered before, the registry and the connection count of the health
    report after the handler are those from before, whatever was received
    in between. *)
Theorem X6_handler_leaves_no_entry ws evs now e st :
  ws ∉ websocket_connections st →
  let '(st', c) :=
    websocket_tracking ws (evs ++ [(now, recv_raise e)]) st in
  c = CLOSED
  ∧ websocket_connections st' = websocket_connections st
  ∧ h_websocket_connections (health_check now st')
    = h_websocket_connections (health_check now st).
Proof.
  intros Hfresh. unfold websocket_tracking.
  assert (∀ st' c, c = CLOSED →
            websocket_connections st' = websocket_connections st →
            c = CLOSED
            ∧ websocket_connections st' = websocket_connections st
            ∧ h_websocket_connections (health_check now st')
              = h_websocket_connections (health_check now st)) as Hgoal.
  { intros st' c -> Heq. unfold health_check. simpl. by rewrite Heq. }
  destruct (decide (healthy (net st) ws)) as [Hh | Hd].
  - rewrite ws_connect_healthy by done.
    set (st1 := replied ws _ (register ws st)).
    pose proof (ws_loop_ends_closed ws evs now e st1) as Hc.
    pose proof (ws_loop_footprint ws (evs ++ [(now, recv_raise e)]) st1) as Hf.
    destruct (ws_loop ws _ st1) as [st' c]. simpl in Hc. subst c.
    destruct Hf as (_ & _ & _ & [[[=] _] | [_ Hreg]] & _).
    apply Hgoal; [done |]. rewrite Hreg. subst st1. simpl.
    by apply py_list_remove_snoc_fresh.
  - rewrite ws_connect_dead by done.
    rewrite finally_unregister_register_fresh by done. by apply Hgoal.
Qed.

Lemma X6_handler_leaves_no_entry_witness :
  let '(st', c) :=
    websocket_tracking 2
      ([(1%Z, recv_json (JObj ping)); (2%Z, recv_json track_frame)]
       ++ [(3%Z, recv_raise WebSocketDisconnect)]) one_client in
  c = CLOSED
  ∧ websocket_connections st' = websocket_connections one_client
  ∧ h_websocket_connections (health_check 3%Z st')
    = h_websocket_connections (health_check 3%Z one_client).
Proof.
  apply (X6_handler_leaves_no_entry 2
           [(1%Z, recv_json (JObj ping)); (2%Z, recv_json track_frame)]
           3%Z WebSocketDisconnect one_client).
  by apply (bool_decide_unpack _).
Defined.

(** X7: a handler, from connect to wherever it stands, writes nothing but
    its own part of the globals: the sessions and the configuration are
    untouched, the registry entries of other handles are untouched, and
    every message it sends goes to its own connection, at most one for the
    connect and one per received message. *)
Theorem X7_handler_footprint ws evs st :
  let '(st', c) := websocket_tracking ws evs st in
  c ≠ CONNECTING
  ∧ active_sessions st' = active_sessions st
  ∧ current_robot_config st' = current_robot_config st
  ∧ (∀ c', c' ≠ ws → occurrences c' (websocket_connections st')
                     = occurrences c' (websocket_connections st))
  ∧ ∃ l, outbox (net st') = outbox (net st) ++ l
         ∧ (length l ≤ 1 + length evs)%nat
         ∧ Forall (λ p, p.1 = ws) l.
Proof.
  assert (∀ c', c' ≠ ws →
            occurrences c' (websocket_connections st ++ [ws])
            = occurrences c' (websocket_connections st)) as Hother.
  { intros c' Hne. unfold occurrences.
    rewrite filter_app, length_app, filter_cons, decide_False by done.
    simpl. lia. }
  unfold websocket_tracking.
  destruct (decide (healthy (net st) ws)) as [Hh | Hd].
  - rewrite ws_connect_healthy by done.
    set (st1 := replied ws _ (register ws st)).
    pose proof (ws_loop_footprint ws evs st1) as Hf.
    destruct (ws_loop ws evs st1) as [st' c].
    destruct Hf as (Hs & Hc & _ & Hreg & l & Ho & Hlen & Hall).
    split; [by destruct Hreg as [[-> _] | [-> _]] |].
    split; [by rewrite Hs |]. split; [by rewrite Hc |]. split.
    + intros c' Hne. destruct Hreg as [[_ ->] | [_ ->]]; subst st1; simpl.
      * by apply Hother.
      * rewrite occurrences_remove_other by done. by apply Hother.
    + exists ((ws, config_msg (current_robot_config st)) :: l).
      rewrite Ho. subst st1. simpl. rewrite <- app_assoc.
      repeat split; [simpl; lia | by constructor].
  - rewrite ws_connect_dead by done.
    rewrite finally_unregister_connections, finally_unregister_net.
    split; [done |].
    split; [unfold finally_unregister; by case_decide |].
    split; [unfold finally_unregister; by case_decide |]. split.
    + intros c' Hne. rewrite occurrences_remove_other by done. by apply Hother.
    + exists []. rewrite app_nil_r. repeat split; [simpl; lia | constructor].
Qed.

(** ** Broadcasts and configuration changes in sequence *)

Lemma healthy_after_broadcast st c :
  healthy (net (broadcast_config_update st)) c ↔ healthy (net st) c.
Proof. unfold healthy. by rewrite broadcast_dead. Qed.

(** X9: a handler whose handle a broadcast has already pruned closes
    without touching anything: its [finally] finds the handle gone. *)
Theorem X9_close_after_prune now e ws st :
  ¬ healthy (net st) ws →
  ws_step now ws (recv_raise e) (broadcast_config_update st)
  = (broadcast_config_update st, CLOSED).
Proof.
  intros Hd. unfold ws_step, finally_unregister.
  rewrite decide_False; [done |].
  rewrite broadcast_connections. by intros [? _]%list_elem_of_filter.
Qed.

Lemma X9_close_after_prune_witness :
  ws_step 0%Z 2 (recv_raise WebSocketDisconnect)
    (broadcast_config_update three_clients)
  = (broadcast_config_update three_clients, CLOSED).
Proof.
  apply (X9_close_after_prune 0%Z WebSocketDisconnect 2 three_clients).
  by apply (bool_decide_unpack _).
Defined.

Lemma set_robot_config_state config st :
  (set_robot_config config st).1 = broadcast_config_update (set_config config st).
Proof. done. Qed.

Lemma set_robot_config_stored config st :
  current_robot_config (set_robot_config config st).1 = config.
Proof. rewrite set_robot_config_state. by rewrite broadcast_config. Qed.

Lemma set_robot_config_delivered ws config st :
  delivered ws (net (set_robot_config config st).1)
  = delivered ws (net st)
    ++ replicate
         (occurrences ws (filter (healthy (net st)) (websocket_connections st)))
         (config_update_msg config).
Proof. rewrite set_robot_config_state, broadcast_delivered. done. Qed.

Lemma delivered_replied ws msg st :
  delivered ws (net (replied ws msg st)) = delivered ws (net st) ++ [msg].
Proof.
  unfold delivered, replied. cbn [net set_net outbox].
  rewrite filter_app, fmap_app, filter_cons. cbn [fst].
  by rewrite decide_True.
Qed.

(** X10: a configuration change is what the tracker reports from then on:
    every frame processed after [set_robot_config] carries the new
    [robot_type]. *)
Theorem X10_tracking_follows_configuration config now m st :
  ∃ r, process_hand_tracking now (JObj m) (set_robot_config config st).1 = Ok r
       ∧ tr_robot_type r = robot_type config.
Proof.
  destruct (process_dict now m (set_robot_config config st).1)
    as (r & Hr & _ & Hty & _).
  exists r. split; [done |]. by rewrite Hty, set_robot_config_stored.
Qed.

(** X11: a client that connects after a configuration change is told the
    new configuration in its ["config"] message, and gets no
    ["config_update"] for the change it missed. *)
Theorem X11_late_client_gets_new_configuration config ws st :
  ws ∉ websocket_connections st →
  healthy (net st) ws →
  let st1 := (set_robot_config config st).1 in
  delivered ws (net (ws_connect ws st1).1)
  = delivered ws (net st) ++ [config_msg config].
Proof.
  intros Hfresh Hh. cbn zeta.
  assert (healthy (net (set_robot_config config st).1) ws) as Hh1.
  { rewrite set_robot_config_state. by apply healthy_after_broadcast. }
  rewrite ws_connect_healthy by done. cbn [fst].
  rewrite set_robot_config_stored, delivered_replied.
  change (net (register ws (set_robot_config config st).1))
    with (net (set_robot_config config st).1).
  rewrite set_robot_config_delivered.
  by rewrite occurrences_healthy, occurrences_not_elem, app_nil_r.
Qed.

Lemma X11_late_client_gets_new_configuration_witness :
  delivered 2 (net (ws_connect 2 (set_robot_config koch_config one_client).1).1)
  = delivered 2 (net one_client) ++ [config_msg koch_config].
Proof.
  apply (X11_late_client_gets_new_configuration koch_config 2 one_client);
    by apply (bool_decide_unpack _).
Defined.

(** ** The tracker's answers *)

(** X13: the tracker fails only on a payload that is not a dict, and then
    with HTTP status 500 and the text of Python's AttributeError for the
    payload's type. *)
Theorem X13_tracker_error_is_500 now data st e :
  process_hand_tracking now data st = Raise e →
  (∀ m, data ≠ JObj m)
  ∧ e = HTTPException 500
          ("Tracking error: '" ++ py_type_name data
           ++ "' object has no attribute 'get'")%string.
Proof.
  intros Hr. split.
  - apply (proj1 (process_raises_iff now data st)). by rewrite Hr.
  - destruct data as [| | [|] | | |m]; try (by injection Hr as <-).
    destruct (process_dict now m st) as (r & Hok & _). congruence.
Qed.

Lemma X13_tracker_error_is_500_witness :
  (∀ m, JNull ≠ JObj m)
  ∧ HTTPException 500 "Tracking error: 'NoneType' object has no attribute 'get'"
    = HTTPException 500
        ("Tracking error: '" ++ py_type_name JNull
         ++ "' object has no attribute 'get'")%string.
Proof.
  apply (X13_tracker_error_is_500 0%Z JNull one_client). reflexivity.
Defined.

(** X14: whatever the frame, a tracking result is consistent with its
    [hand_detected] flag: the three fingertips are all present when it is
    set and all absent when not, [in_workspace] equals the flag, and there
    are always 6 joint angles, an open gripper, [success = True] and the
    timestamp of the call. *)
Theorem X14_result_consistent_with_detection now data st r :
  process_hand_tracking now data st = Ok r →
  in_workspace (tr_robot_control r) = tr_hand_detected r
  ∧ (is_Some (thumb (tr_fingertips r)) ↔ tr_hand_detected r = true)
  ∧ (is_Some (index_pip (tr_fingertips r)) ↔ tr_hand_detected r = true)
  ∧ (is_Some (index_tip (tr_fingertips r)) ↔ tr_hand_detected r = true)
  ∧ length (joint_angles (tr_robot_control r)) = 6
  ∧ gripper_state (tr_robot_control r) = "open"
  ∧ tr_success r = true
  ∧ tr_timestamp r = now.
Proof.
  destruct data as [| | | | |m]; try discriminate.
  unfold process_hand_tracking, track_body. simpl.
  destruct (py_ne_str _ _); intros [= <-]; simpl;
    repeat split; try done; try (by intros [? [=]]); by eexists.
Qed.

Lemma X14_result_consistent_with_detection_witness :
  ∃ r, process_hand_tracking 7%Z (JObj frame_with_image) one_client = Ok r
  ∧ in_workspace (tr_robot_control r) = tr_hand_detected r
  ∧ (is_Some (thumb (tr_fingertips r)) ↔ tr_hand_detected r = true)
  ∧ (is_Some (index_pip (tr_fingertips r)) ↔ tr_hand_detected r = true)
  ∧ (is_Some (index_tip (tr_fingertips r)) ↔ tr_hand_detected r = true)
  ∧ length (joint_angles (tr_robot_control r)) = 6
  ∧ gripper_state (tr_robot_control r) = "open"
  ∧ tr_success r = true
  ∧ tr_timestamp r = 7%Z.
Proof.
  eexists. split; [reflexivity |].
  apply (X14_result_consistent_with_detection 7%Z (JObj frame_with_image)
           one_client).
  reflexivity.
Defined.

(** X15: an ["image"] message on a reachable connection is always answered
    with one [tracking_result] and never ends the handler; the result says
    no hand exactly when ["data"] is missing or the empty string, so a
    ["data"] of [null] counts as a hand. *)
Theorem X15_image_message_always_answered now ws m st :
  m !! "type" = Some (JStr "image") →
  healthy (net st) ws →
  ∃ r, ws_step now ws (recv_json (JObj m)) st
       = (replied ws (tracking_result_msg r) st, OPEN)
       ∧ (tr_hand_detected r = false
          ↔ m !! "data" = None ∨ m !! "data" = Some (JStr "")).
Proof.
  intros Hty Hh. destruct (tracker_input_image m Hty) as (pm & Hp & Himg).
  destruct (process_dict now pm st) as (r & Hr & Hdet & _).
  exists r. split; [by apply ws_step_tracker_ok with (p := JObj pm) |].
  rewrite Hdet, Himg. rewrite py_ne_str_false.
  destruct (m !! "data") as [v|]; simpl.
  - split; [intros ->; by right | by intros [[=] | [= ->]]].
  - split; [by left | done].
Qed.

Lemma X15_image_message_always_answered_witness :
  ∃ r, ws_step 0%Z 1 (recv_json (JObj image_null)) one_client
       = (replied 1 (tracking_result_msg r) one_client, OPEN)
       ∧ (tr_hand_detected r = false
          ↔ image_null !! "data" = None ∨ image_null !! "data" = Some (JStr "")).
Proof.
  apply (X15_image_message_always_answered 0%Z 1 image_null one_client);
    [reflexivity | by apply (bool_decide_unpack _)].
Defined.

(** X16: a ["track"] message without a ["data"] field is processed as the
    empty frame: on a reachable connection it is answered with the
    "no hand detected" result and the handler goes on. *)
Theorem X16_track_without_data_is_empty_frame now ws m st :
  m !! "type" = Some (JStr "track") →
  m !! "data" = None →
  healthy (net st) ws →
  ∃ r, ws_step now ws (recv_json (JObj m)) st
       = (replied ws (tracking_result_msg r) st, OPEN)
       ∧ no_hand_detected r
       ∧ process_hand_tracking now (JObj ∅) st = Ok r.
Proof.
  intros Hty Hdata Hh.
  destruct (process_empty_image now ∅ st) as (r & Hr & Hno); [by left |].
  exists r. split; [| done].
  apply ws_step_tracker_ok with (p := JObj ∅); [| done | done].
  rewrite tracker_input_track by done. by rewrite Hdata.
Qed.

Lemma X16_track_without_data_is_empty_frame_witness :
  ∃ r, ws_step 0%Z 1 (recv_json (JObj {[ "type" := JStr "track" ]})) one_client
       = (replied 1 (tracking_result_msg r) one_client, OPEN)
       ∧ no_hand_detected r
       ∧ process_hand_tracking 0%Z (JObj ∅) one_client = Ok r.
Proof.
  apply (X16_track_without_data_is_empty_frame 0%Z 1
           {[ "type" := JStr "track" ]} one_client);
    [reflexivity | reflexivity | by apply (bool_decide_unpack _)].
Defined.

(** ** Every state the backend can reach *)

Lemma handle_message_sends_no_config now ws data st st' :
  handle_message now ws data st = Ok st' →
  st' = st ∨ ∃ msg, st' = replied ws msg st ∧ msg_config msg = None.
Proof.
  destruct data as [| | | | |m]; try discriminate.
  unfold handle_message. simpl.
  destruct (py_eq_str _ "ping").
  { intros [? ->]%st_send_ok. right. by exists pong_msg. }
  destruct (py_eq_str _ "track").
  { destruct (process_hand_tracking now _ st) as [r|e]; [| discriminate].
    intros [? ->]%st_send_ok. right. by exists (tracking_result_msg r). }
  destruct (py_eq_str _ "image").
  { unfold image_tracking_data. simpl.
    destruct (process_hand_tracking now _ st) as [r|e]; [| discriminate].
    intros [? ->]%st_send_ok. right. by exists (tracking_result_msg r). }
  intros [= <-]. by left.
Qed.

Lemma ws_step_sends_no_config now ws ev st :
  ∃ l, outbox (net (ws_step now ws ev st).1) = outbox (net st) ++ l
       ∧ Forall (λ p, msg_config p.2 = None) l.
Proof.
  assert (∃ l, outbox (net (finally_unregister ws st)) = outbox (net st) ++ l
               ∧ Forall (λ p, msg_config p.2 = None) l) as Hclose.
  { exists []. rewrite finally_unregister_net, app_nil_r. by split. }
  unfold ws_step. destruct ev as [data | e]; [| exact Hclose].
  destruct (handle_message now ws data st) as [st'|e] eqn:Hm; [| exact Hclose].
  apply handle_message_sends_no_config in Hm as [-> | (msg & -> & Hmsg)].
  - exists []. rewrite app_nil_r. by split.
  - exists [(ws, msg)]. split; [done |]. by repeat constructor.
Qed.

Lemma elem_of_py_list_remove (ws c : WebSocket) (l : list WebSocket) :
  c ∈ py_list_remove ws l → c ∈ l.
Proof. apply sublist_subseteq, py_list_remove_sublist. Qed.

Lemma finally_unregister_sublist ws st :
  websocket_connections (finally_unregister ws st)
  `sublist_of` websocket_connections st.
Proof. rewrite finally_unregister_connections. apply py_list_remove_sublist. Qed.

Lemma broadcast_sessions st :
  active_sessions (broadcast_config_update st) = active_sessions st.
Proof.
  unfold broadcast_config_update.
  destruct (websocket_connections st); [done |].
  by destruct (broadcast_loop _ _ _ _).
Qed.

(** What serving one request does to each global. *)
Lemma serve_footprint st req :
  let st' := serve st req in
  active_sessions st' = active_sessions st
  ∧ current_robot_config st'
    = match req with POST_config c => c | _ => current_robot_config st end
  ∧ websocket_connections st'
    `sublist_of` websocket_connections st
                 ++ match req with WS_accept ws => [ws] | _ => [] end
  ∧ ∃ l, outbox (net st') = outbox (net st) ++ l
         ∧ Forall (λ p, ∀ c, msg_config p.2 = Some c →
                             c = current_robot_config st') l.
Proof.
  assert (active_sessions st = active_sessions st
          ∧ current_robot_config st = current_robot_config st
          ∧ websocket_connections st `sublist_of` websocket_connections st ++ []
          ∧ ∃ l, outbox (net st) = outbox (net st) ++ l
                 ∧ Forall (λ p, ∀ c, msg_config p.2 = Some c →
                                     c = current_robot_config st) l) as Hsame.
  { rewrite app_nil_r. split; [done |]. split; [done |]. split; [done |].
    exists []. by rewrite app_nil_r. }
  destruct req as [now | | config | now data | ws | now ws ev | ws];
    cbn [serve]; [| | | | | | exact Hsame].
  - exact Hsame.
  - exact Hsame.
  - rewrite set_robot_config_state, app_nil_r.
    rewrite broadcast_config, broadcast_connections, broadcast_outbox.
    split; [by rewrite broadcast_sessions |].
    split; [done |]. split; [apply sublist_filter |].
    eexists. split; [reflexivity |].
    apply Forall_fmap, Forall_forall. by intros c _ c' [= <-].
  - exact Hsame.
  - destruct (decide (healthy (net st) ws)) as [Hh | Hd].
    + rewrite ws_connect_healthy by done. cbn.
      split; [done |]. split; [done |]. split; [done |].
      exists [(ws, config_msg (current_robot_config st))].
      split; [done |]. repeat constructor. by intros c [= <-].
    + rewrite ws_connect_dead by done. cbn [fst].
      rewrite finally_unregister_net.
      split; [unfold finally_unregister; by case_decide |].
      split; [unfold finally_unregister; by case_decide |].
      split; [apply finally_unregister_sublist |].
      exists []. by rewrite app_nil_r.
  - rewrite app_nil_r.
    pose proof (ws_step_footprint now ws ev st) as Hf.
    pose proof (ws_step_sends_no_config now ws ev st) as (l & Ho & Hl).
    destruct (ws_step now ws ev st) as [st' c]. cbn [fst] in *.
    destruct Hf as (Hs & Hc & _ & Hreg & _).
    split; [done |]. split; [done |]. split.
    + destruct Hreg as [[_ ->] | [_ ->]]; [done | apply py_list_remove_sublist].
    + exists l. split; [done |].
      eapply Forall_impl; [exact Hl |]. intros p Hp c'. by rewrite Hp.
Qed.

Lemma run_snoc t reqs req : run t (reqs ++ [req]) = serve (run t reqs) req.
Proof. unfold run. by rewrite foldl_app. Qed.

Lemma last_config_snoc reqs req :
  last_config (reqs ++ [req])
  = match req with POST_config c => c | _ => last_config reqs end.
Proof. unfold last_config. by rewrite foldl_app. Qed.

Lemma accepted_snoc reqs req :
  accepted (reqs ++ [req])
  = accepted reqs ++ match req with WS_accept ws => [ws] | _ => [] end.
Proof. unfold accepted. rewrite bind_app. simpl. by rewrite app_nil_r. Qed.

Lemma was_set_snoc reqs req c : was_set reqs c → was_set (reqs ++ [req]) c.
Proof.
  intros [-> | Hin]; [by left | right]. apply elem_of_app. by left.
Qed.

Lemma run_invariant t reqs :
  active_sessions (run t reqs) = ∅
  ∧ current_robot_config (run t reqs) = last_config reqs
  ∧ was_set reqs (last_config reqs)
  ∧ websocket_connections (run t reqs) `sublist_of` accepted reqs
  ∧ ∃ l, outbox (net (run t reqs)) = outbox t ++ l
         ∧ Forall (λ p, ∀ c, msg_config p.2 = Some c → was_set reqs c) l.
Proof.
  induction reqs as [|req reqs IH] using rev_ind.
  - split; [done |]. split; [done |]. split; [by left |]. split; [done |].
    exists []. by rewrite app_nil_r.
  - destruct IH as (Hs & Hc & Hset & Hreg & l & Ho & Hl).
    rewrite run_snoc, last_config_snoc, accepted_snoc.
    destruct (serve_footprint (run t reqs) req) as (Hs' & Hc' & Hreg' & l' & Ho' & Hl').
    assert (current_robot_config (serve (run t reqs) req)
            = match req with POST_config c => c | _ => last_config reqs end)
      as Hcur by (rewrite Hc'; destruct req; by rewrite ?Hc).
    assert (was_set (reqs ++ [req])
              match req with POST_config c => c | _ => last_config reqs end)
      as Hset'.
    { destruct req; try (by apply was_set_snoc).
      right. apply elem_of_app. right. by left. }
    split; [by rewrite Hs' |]. split; [done |]. split; [done |]. split.
    + etrans; [exact Hreg' |]. by apply sublist_app.
    + exists (l ++ l'). rewrite Ho', Ho, app_assoc. split; [done |].
      apply Forall_app. split.
      * eapply Forall_impl; [exact Hl |]. intros p Hp c Hm.
        by apply was_set_snoc, Hp.
      * eapply Forall_impl; [exact Hl' |]. intros p Hp c Hm.
        rewrite (Hp c Hm), Hcur. exact Hset'.
Qed.

(** X17: no request ever creates a session: in every state the backend
    can reach [active_sessions] is empty and the health report counts 0
    active sessions. *)
Theorem X17_no_session_is_ever_created t reqs now :
  active_sessions (run t reqs) = ∅
  ∧ h_active_sessions (health_check now (run t reqs)) = 0.
Proof.
  destruct (run_invariant t reqs) as (Hs & _).
  split; [done |]. unfold health_check. simpl. by rewrite Hs.
Qed.

(** X18: the stored configuration is always the one of the latest
    [POST /api/config/robot], or the default if there was none; tracking,
    WebSocket traffic and broken connections never change it, and the
    tracker reports its [robot_type]. *)
Theorem X18_stored_configuration_is_last_posted t reqs now m :
  current_robot_config (run t reqs) = last_config reqs
  ∧ ∃ r, process_hand_tracking now (JObj m) (run t reqs) = Ok r
         ∧ tr_robot_type r = robot_type (last_config reqs).
Proof.
  destruct (run_invariant t reqs) as (_ & Hc & _).
  split; [done |].
  destruct (process_dict now m (run t reqs)) as (r & Hr & _ & Hty & _).
  exists r. by rewrite Hty, Hc.
Qed.

(** X19: every configuration a client is ever sent, in a ["config"] or a
    ["config_update"] message, is a whole configuration that was posted, or
    the default; nothing sent is taken back. *)
Theorem X19_clients_only_see_set_configurations t reqs :
  ∃ l, outbox (net (run t reqs)) = outbox t ++ l
       ∧ Forall (λ p, ∀ c, msg_config p.2 = Some c → was_set reqs c) l.
Proof. by destruct (run_invariant t reqs) as (_ & _ & _ & _ & Ho). Qed.


Example run_two_clients_one_lost :
  let reqs := [WS_accept 1; WS_accept 2; POST_config koch_config;
               WS_receive 5%Z 1 (recv_json (JObj ping));
               WS_receive 6%Z 3 (recv_raise WebSocketDisconnect)] in
  let st := run {| dead := {[2]}; outbox := [] |} reqs in
  websocket_connections st = [1]
  ∧ current_robot_config st = koch_config
  ∧ msg_type <$> delivered 1 (net st) = ["config"; "config_update"; "pong"]
  ∧ delivered 2 (net st) = [].
Proof. vm_compute. done. Qed.



(** ** The broadcast loop among other tasks *)

Lemma set_net_same st : set_net (net st) st = st.
Proof. by destruct st. Qed.

(** When no other task uses the awaits, the loop over the live list is the
    loop over the list as it was. *)
Lemma broadcast_live_uninterrupted sched i message active st :
  Forall (λ during, during = []) sched →
  broadcast_live sched i message active st
  = let '(active', t) :=
      broadcast_loop (drop i (websocket_connections st)) message active (net st) in
    (active', set_net t st).
Proof.
  intros Hquiet. revert i active st.
  induction Hquiet as [|during sched -> _ IH]; intros i active st; [done |].
  cbn [broadcast_live foldl].
  destruct (websocket_connections st !! i) as [c|] eqn:Hi.
  - rewrite (drop_S _ _ _ Hi). cbn [broadcast_loop].
    destruct (send_json c message (net st)) as [t|e]; [| apply IH].
    rewrite IH. done.
  - rewrite drop_ge by (by apply lookup_ge_None). simpl. by rewrite set_net_same.
Qed.

Lemma broadcast_config_update_live_uninterrupted sched st :
  Forall (λ during, during = []) sched →
  broadcast_config_update_live sched st = broadcast_config_update st.
Proof.
  intros Hquiet. unfold broadcast_config_update_live, broadcast_config_update.
  destruct (websocket_connections st) as [|c l] eqn:Hl; [done |].
  rewrite broadcast_live_uninterrupted by done. rewrite Hl. cbn [drop].
  by destruct (broadcast_loop (c :: l) _ [] (net st)).
Qed.

(** C2: the backend does not keep this promise.  Handles 1, 2 and 3 are
    registered and only handle 1 fails.  While the send to handle 1 is
    awaited its handler runs its [finally] and takes handle 1 out of the
    list; the loop's index then points past handle 2, which is sent
    nothing and is missing from the registry afterwards. *)
Theorem C2_live_broadcast_skips_healthy_client :
  let st := first_peer_gone in
  let st' := broadcast_config_update_live first_handler_closes st in
  websocket_connections st = [1; 2; 3]
  ∧ ¬ healthy (net st) 1 ∧ healthy (net st) 2 ∧ healthy (net st) 3
  ∧ healthy (net st') 2
  ∧ websocket_connections st' = [3]
  ∧ delivered 2 (net st') = []
  ∧ delivered 3 (net st') = [config_update_msg (current_robot_config st)]
  ∧ websocket_connections (broadcast_config_update st) = [2; 3].
Proof.
  cbn zeta.
  split; [reflexivity |].
  split; [by apply (bool_decide_unpack _) |].
  split; [by apply (bool_decide_unpack _) |].
  split; [by apply (bool_decide_unpack _) |].
  split; [by apply (bool_decide_unpack _) |].
  repeat split; vm_compute; reflexivity.
Qed.

